(** * Arch_Mirror_Updater: a shallow embedding of [arch_mirror_updater.py]

    The script fetches the mirror status document, keeps the mirrors that
    are up to the predefined standards and rewrites the pacman mirror list.
    The embedding follows the script function by function:

    - [Py]        the few Python built-ins the script relies on
                  ([in] on strings, [any]);
    - [Datetime]  the part of the [datetime] module that [is_outdated]
                  uses: naive datetimes, their difference and
                  [timedelta.total_seconds];
    - section [Updater]  the script itself, over the two values it takes
                  from its surroundings: the parser [strptime] and the
                  instant [NOW] captured when the module is loaded.

    A run is a computation on a [world]: the content of the mirror list
    and the trace of what the run did (fetch, open, write, close, warn).
    The generator [updated_urls] is unfolded into the sequence of its
    yields and its ending, which the loop of [main] consumes one yield at
    a time, as the [for] statement does.

    Numbers that are [float] in Python ([completion_pct], [score], the
    result of [total_seconds]) are rationals here.  Every comparison the
    script makes on them is against an integer constant, which Python
    evaluates exactly on finite values.  The one computation on them,
    [total_seconds() / 3600], rounds twice in Python; rounding is monotone
    and both 21600 seconds and 6 hours are doubles, so the comparison with
    [MAX_LAST_SYNC_HOURS] falls where it falls on the rationals
    ([hours_double_at_threshold] evaluates it in double precision around
    the threshold). *)

From Stdlib Require Import String Ascii List ZArith QArith Bool Lia.
From Stdlib Require Import DecimalString.
From Stdlib Require Import Floats Uint63.
Import ListNotations.

Local Open Scope string_scope.
Local Open Scope Z_scope.

(** ** Python built-ins *)

Module Py.

(** [needle in hay] on [str]: [needle] occurs as a contiguous run
    somewhere in [hay]. *)
Fixpoint contains (needle hay : string) : bool :=
  if String.prefix needle hay then true
  else match hay with
       | EmptyString => false
       | String _ hay' => contains needle hay'
       end.

(** [any(f(x) for x in xs)] *)
Definition any {A : Type} (f : A -> bool) (xs : list A) : bool :=
  existsb f xs.

(** [str(n)] for an integer. *)
Definition str (n : Z) : string := NilZero.string_of_int (Z.to_int n).

(** The line feed, written ["\n"] in the script. *)
Definition LF : string := String (ascii_of_nat 10) EmptyString.

End Py.

(** ** The [datetime] module, as far as the script uses it *)

Module Datetime.

(** A naive [datetime.datetime]. *)
Record datetime : Type := mk_datetime {
  year : Z;
  month : Z;
  day : Z;
  hour : Z;
  minute : Z;
  second : Z;
  microsecond : Z
}.

(** A [datetime.timedelta], normalised as Python keeps it:
    [0 <= seconds < 86400] and [0 <= microseconds < 1000000]. *)
Record timedelta : Type := mk_timedelta {
  days : Z;
  seconds : Z;
  microseconds : Z
}.

Definition is_leap (y : Z) : bool :=
  (y mod 4 =? 0) && (negb (y mod 100 =? 0) || (y mod 400 =? 0)).

Definition days_before_year (y : Z) : Z :=
  let y' := y - 1 in
  y' * 365 + y' / 4 - y' / 100 + y' / 400.

Definition days_in_month (y m : Z) : Z :=
  if m =? 2 then (if is_leap y then 29 else 28)
  else if (m =? 4) || (m =? 6) || (m =? 9) || (m =? 11) then 30
  else 31.

(** Days of the year that precede the first day of month [m]; the
    table is [_DAYS_BEFORE_MONTH], whose entry 0 is a placeholder. *)
Definition days_before_month (y m : Z) : Z :=
  nth (Z.to_nat m) [-1; 0; 31; 59; 90; 120; 151; 181; 212; 243; 273; 304; 334] 0
  + (if (2 <? m) && is_leap y then 1 else 0).

(** [date.toordinal]: 1 for 0001-01-01. *)
Definition toordinal (d : datetime) : Z :=
  days_before_year (year d) + days_before_month (year d) (month d) + day d.

(** [timedelta(days, seconds, microseconds)]: the constructor carries
    the overflow of each field into the next one. *)
Definition timedelta_new (d s us : Z) : timedelta :=
  let s1 := s + us / 1000000 in
  {| days := d + s1 / 86400;
     seconds := s1 mod 86400;
     microseconds := us mod 1000000 |}.

(** [datetime.__sub__] on two naive datetimes. *)
Definition sub (a b : datetime) : timedelta :=
  let secs (x : datetime) := second x + minute x * 60 + hour x * 3600 in
  timedelta_new (toordinal a - toordinal b)
                (secs a - secs b)
                (microsecond a - microsecond b).

(** [timedelta.total_seconds]:
    [((days * 86400 + seconds) * 10**6 + microseconds) / 10**6]. *)
Definition total_seconds (td : timedelta) : Q :=
  (inject_Z ((days td * 86400 + seconds td) * 10 ^ 6 + microseconds td)
   / inject_Z (10 ^ 6))%Q.

(** The same quotient and the division by 3600 that follows it in
    [is_outdated], in double precision, for a duration of [us]
    microseconds below 2**53 in size (285 years): both integers of the
    quotient are then doubles, and Python rounds their quotient once, as
    the division of doubles does. *)
Definition double_of_Z (z : Z) : float :=
  if z <? 0 then PrimFloat.opp (PrimFloat.of_uint63 (Uint63.of_Z (- z)))
  else PrimFloat.of_uint63 (Uint63.of_Z z).

Definition hours_double (us : Z) : float :=
  PrimFloat.div (PrimFloat.div (double_of_Z us) (double_of_Z (10 ^ 6)))
                (double_of_Z 3600).

(** The instant of a naive datetime in microseconds, counted from the
    midnight before 0001-01-01.  Used in statements only. *)
Definition to_microseconds (d : datetime) : Z :=
  ((toordinal d * 86400 + hour d * 3600 + minute d * 60 + second d) * 1000000)
  + microsecond d.

(** Microseconds from [b] to [a]. *)
Definition elapsed_us (a b : datetime) : Z :=
  to_microseconds a - to_microseconds b.

End Datetime.

Import Datetime.

(** ** The script *)

(** The exceptions that can end a run.  [RuntimeError] is raised by
    [main] itself, [ValueError] by [datetime.strptime] on a string that
    does not match the format, [URLError] and [JSONDecodeError] by
    [load_data_from_url], [OSError] by [open]. *)
Inductive exn : Type :=
| RuntimeError (msg : string)
| ValueError (timestamp time_format : string)
| URLError
| JSONDecodeError
| OSError.

(** The two warning categories the script uses; [warnings.warn] without
    a category issues a [UserWarning]. *)
Inductive category : Type := RuntimeWarning | UserWarning.

(** [open] modes used by the script: ["w"] and ["a"]. *)
Inductive mode : Type := mode_w | mode_a.

(** One element of the [urls] list; the keys the script reads. *)
Record url_information : Type := mk_url_information {
  url : string;
  protocol : string;
  last_sync : string;
  completion_pct : Q;
  score : Q;
  active : bool
}.

(** The decoded document; the keys the script reads. *)
Record Data : Type := mk_Data {
  last_check : string;
  urls : list url_information
}.

(** What [urllib.request.urlopen] and [json.loads] do with the request:
    the one input of the run that comes from the network. *)
Inductive response : Type :=
| Unreachable
| NotJSON
| Body (d : Data).

(** What the run finds around it. *)
Record environment : Type := mk_environment {
  sys_platform : string;
  geteuid : Z;
  urlopen : response;
  writable : bool      (* whether [open] on the mirror list succeeds *)
}.

(** What the run does that can be seen from outside, in order. *)
Inductive event : Type :=
| Fetch (from : string)
| Open (path : string) (m : mode)
| Write (data : string)
| Close
| Warn (msg : string) (c : category).

(** The mutable surroundings: the content of the mirror list ([None]
    when the file does not exist) and the events so far, oldest first. *)
Record world : Type := mk_world {
  mirrorlist : option string;
  trace : list event
}.

(** A generator, unfolded: the values it yields, in order, and how it
    ends: exhausted ([StopIteration]) or by an exception raised while
    looking for the next value.  The consumer sees a [Yield] before
    anything that follows it is computed. *)
Inductive generator (A : Type) : Type :=
| StopIteration
| Raise (e : exn)
| Yield (a : A) (rest : generator A).

Arguments StopIteration {A}.
Arguments Raise {A} e.
Arguments Yield {A} a rest.

(** The values a generator yields before it ends. *)
Fixpoint yielded {A : Type} (g : generator A) : list A :=
  match g with
  | StopIteration | Raise _ => []
  | Yield a rest => a :: yielded rest
  end.

(** How a generator ends. *)
Fixpoint ending {A : Type} (g : generator A) : option exn :=
  match g with
  | StopIteration => None
  | Raise e => Some e
  | Yield _ rest => ending rest
  end.

(** The generator that yields the elements of a list and stops. *)
Fixpoint of_list {A : Type} (xs : list A) : generator A :=
  match xs with
  | [] => StopIteration
  | x :: xs' => Yield x (of_list xs')
  end.

(** *** Computations that change the world and may raise *)

Definition M (A : Type) : Type := world -> (exn + A) * world.

Definition ret {A : Type} (a : A) : M A := fun w => (inr a, w).

Definition raise {A : Type} (e : exn) : M A := fun w => (inl e, w).

Definition bind {A B : Type} (c : M A) (k : A -> M B) : M B :=
  fun w => match c w with
           | (inl e, w') => (inl e, w')
           | (inr a, w') => k a w'
           end.

Notation "x <- c ;; k" := (bind c (fun x => k))
  (at level 61, c at next level, right associativity).
Notation "c ;; k" := (bind c (fun _ => k))
  (at level 61, right associativity).

Definition emit (ev : event) : M unit :=
  fun w => (inr tt, {| mirrorlist := mirrorlist w; trace := trace w ++ [ev] |}).

(** A pure result that may be an exception, run as a computation. *)
Definition lift {A : Type} (r : exn + A) : M A :=
  match r with
  | inl e => raise e
  | inr a => ret a
  end.

(** [warnings.warn(msg, category)] *)
Definition warn (msg : string) (c : category) : M unit := emit (Warn msg c).

(* Options *)
Definition MAX_LAST_SYNC_HOURS : Z := 6.
Definition MAX_SCORE : Z := 1.
Definition MINIMUM_COMPLETION_PERCENTAGE : Z := 1.
Definition URL_BLACKLIST : list string :=
  ["mirrors.lug.mtu.edu"; "mirror.rackspace.com"].

(* Constants *)
Definition MIRROR_LIST_PATH : string := "/etc/pacman.d/mirrorlist".
Definition URL : string := "https://www.archlinux.org/mirrors/status/json/".

(** [open(MIRROR_LIST_PATH, mode=m)]: ["w"] creates or empties the file,
    ["a"] creates it when absent and keeps what is there. *)
Definition open_mirrorlist (env : environment) (m : mode) : M unit :=
  fun w =>
    if writable env then
      (inr tt,
       {| mirrorlist := match m with
                        | mode_w => Some ""
                        | mode_a => Some (match mirrorlist w with
                                          | Some old => old
                                          | None => ""
                                          end)
                        end;
          trace := trace w ++ [Open MIRROR_LIST_PATH m] |})
    else (inl OSError, w).

(** [file_obj.write(data)] *)
Definition write (data : string) : M unit :=
  fun w =>
    (inr tt,
     {| mirrorlist := match mirrorlist w with
                      | Some old => Some (old ++ data)
                      | None => Some data
                      end;
        trace := trace w ++ [Write data] |}).

(** Leaving the [with] block closes the file. *)
Definition close : M unit := emit Close.

(** [is_platform_linux] *)
Definition is_platform_linux (env : environment) : bool :=
  Py.contains "linux" (sys_platform env).

(** [load_data_from_url] *)
Definition load_data_from_url (env : environment) (from : string) : M Data :=
  emit (Fetch from) ;;
  match urlopen env with
  | Unreachable => raise URLError
  | NotJSON => raise JSONDecodeError
  | Body d => ret d
  end.

Section Updater.

(** [datetime.datetime.strptime]: [None] stands for the [ValueError] it
    raises when the string does not match the format. *)
Variable strptime : string -> string -> option datetime.

(** [NOW = datetime.datetime.now()], taken once when the module loads. *)
Variable NOW : datetime.

(** [is_outdated] *)
Definition is_outdated (timestamp time_format : string) : exn + bool :=
  match strptime timestamp time_format with
  | None => inl (ValueError timestamp time_format)
  | Some parsed =>
      let result := sub NOW parsed in
      let hours_since_last_sync := (total_seconds result / inject_Z 3600)%Q in
      (* hours_since_last_sync > MAX_LAST_SYNC_HOURS *)
      inr (negb (Qle_bool hours_since_last_sync (inject_Z MAX_LAST_SYNC_HOURS)))
  end.

(** The line [updated_urls] yields for an entry:
    [f"Server = {url_information['url']}$repo/os/$arch\n"]. *)
Definition mirror_path (url_information : url_information) : string :=
  "Server = " ++ url url_information ++ "$repo/os/$arch" ++ Py.LF.

(** [updated_urls] *)
Fixpoint updated_urls (urls_data : list url_information) : generator string :=
  match urls_data with
  | [] => StopIteration
  | url_information :: urls_data' =>
      if Py.any (fun slow_url => Py.contains slow_url (url url_information))
                URL_BLACKLIST
      then updated_urls urls_data'
      else if negb (active url_information)
      then updated_urls urls_data'
      else if negb (String.eqb (protocol url_information) "https")
      then updated_urls urls_data'
      else if negb (Qle_bool (inject_Z MINIMUM_COMPLETION_PERCENTAGE)
                             (completion_pct url_information))
      then updated_urls urls_data'
      else if Qle_bool (inject_Z MAX_SCORE) (score url_information)
      then updated_urls urls_data'
      else match is_outdated (last_sync url_information) "%Y-%m-%dT%H:%M:%SZ" with
           | inl e => Raise e
           | inr true => updated_urls urls_data'
           | inr false =>
               Yield (mirror_path url_information) (updated_urls urls_data')
           end
  end.

(** The [for mirror_path in updated_urls(...)] loop of [main], with the
    two variables it updates: [have_failed] and [mode]. *)
Fixpoint for_mirror_path (env : environment) (g : generator string)
    (have_failed : bool) (m : mode) : M (bool * mode) :=
  match g with
  | StopIteration => ret (have_failed, m)
  | Raise e => raise e
  | Yield mirror_path rest =>
      (* have_failed = False *)
      open_mirrorlist env m ;;
      write mirror_path ;;
      close ;;
      (* mode = "a" *)
      for_mirror_path env rest false mode_a
  end.

(** [main] *)
Definition main (env : environment) : M unit :=
  if negb (is_platform_linux env) then
    raise (RuntimeError "The running platform is not linux")
  else if negb (geteuid env =? 0) then
    raise (RuntimeError "The user who is running the script needs to be root")
  else
    DATA <- load_data_from_url env URL ;;
    outdated <- lift (is_outdated (last_check DATA) "%Y-%m-%dT%H:%M:%S.%fZ") ;;
    (if outdated : bool then
       warn ("The number of hours since the last sync of the data,"
             ++ " is larger than " ++ Py.str MAX_LAST_SYNC_HOURS)
            RuntimeWarning
     else ret tt) ;;
    st <- for_mirror_path env (updated_urls (urls DATA)) true mode_w ;;
    if fst st then warn "The mirror list was not updated" UserWarning
    else ret tt.

End Updater.

(** ** A parser for the zero-padded renderings

    [strptime] of the two formats the script uses, for timestamps written
    the way the status document writes them: four digits for [%Y], two
    for [%m %d %H %M %S], one to six for [%f], every other character of
    the format matched literally.  (Python also takes fields without the
    leading zero; those strings are left out here.)  The runs and sample
    data below use it. *)

Module Sample.

Definition digit (c : ascii) : option Z :=
  let n := Z.of_nat (nat_of_ascii c) in
  if (48 <=? n) && (n <=? 57) then Some (n - 48) else None.

(** Exactly [n] digits. *)
Fixpoint digits (n : nat) (s : list ascii) (acc : Z) : option (Z * list ascii) :=
  match n with
  | O => Some (acc, s)
  | S n' =>
      match s with
      | c :: s' =>
          match digit c with
          | Some d => digits n' s' (acc * 10 + d)
          | None => None
          end
      | [] => None
      end
  end.

(** As many digits as there are, at most [n]; each missing one counts as
    a trailing zero ([%f] reads a fraction of a second). *)
Fixpoint fraction (n : nat) (s : list ascii) (acc : Z) : Z * list ascii :=
  match n with
  | O => (acc, s)
  | S n' =>
      match s with
      | c :: s' =>
          match digit c with
          | Some d => fraction n' s' (acc * 10 + d)
          | None => (acc * 10 ^ Z.of_nat n, s)
          end
      | [] => (acc * 10 ^ Z.of_nat n, s)
      end
  end.

Definition set_field (c : ascii) (v : Z) (d : datetime) : datetime :=
  match c with
  | "Y"%char => mk_datetime v (month d) (day d) (hour d) (minute d) (second d) (microsecond d)
  | "m"%char => mk_datetime (year d) v (day d) (hour d) (minute d) (second d) (microsecond d)
  | "d"%char => mk_datetime (year d) (month d) v (hour d) (minute d) (second d) (microsecond d)
  | "H"%char => mk_datetime (year d) (month d) (day d) v (minute d) (second d) (microsecond d)
  | "M"%char => mk_datetime (year d) (month d) (day d) (hour d) v (second d) (microsecond d)
  | "S"%char => mk_datetime (year d) (month d) (day d) (hour d) (minute d) v (microsecond d)
  | _ => mk_datetime (year d) (month d) (day d) (hour d) (minute d) (second d) v
  end.

Fixpoint scan (fmt s : list ascii) (d : datetime) : option datetime :=
  match fmt with
  | [] => match s with [] => Some d | _ :: _ => None end
  | "%"%char :: c :: fmt' =>
      if Ascii.eqb c "f" then
        match s with
        | x :: _ =>
            match digit x with
            | Some _ => let (v, s') := fraction 6 s 0 in scan fmt' s' (set_field c v d)
            | None => None
            end
        | [] => None
        end
      else
        match digits (if Ascii.eqb c "Y" then 4 else 2) s 0 with
        | Some (v, s') => scan fmt' s' (set_field c v d)
        | None => None
        end
  | c :: fmt' =>
      match s with
      | x :: s' => if Ascii.eqb c x then scan fmt' s' d else None
      | [] => None
      end
  end.

(** The ranges the [datetime] constructor checks. *)
Definition valid (d : datetime) : bool :=
  (1 <=? year d) && (year d <=? 9999)
  && (1 <=? month d) && (month d <=? 12)
  && (1 <=? day d) && (day d <=? days_in_month (year d) (month d))
  && (hour d <=? 23) && (minute d <=? 59) && (second d <=? 59).

Definition strptime (timestamp time_format : string) : option datetime :=
  match scan (list_ascii_of_string time_format) (list_ascii_of_string timestamp)
             (mk_datetime 1900 1 1 0 0 0 0) with
  | Some d => if valid d then Some d else None
  | None => None
  end.

(** The instant the sample runs take for [NOW]. *)
Definition NOW : datetime := mk_datetime 2020 3 1 12 0 0 0.

(** Scenario A of the specification: one mirror that is up to the
    standards, synchronised at [NOW]. *)
Definition mirror_example : url_information :=
  {| url := "mirror.example/";
     protocol := "https";
     last_sync := "2020-03-01T12:00:00Z";
     completion_pct := 1;
     score := 1 # 2;
     active := true |}.

(** A second good mirror, synchronised two hours before [NOW]. *)
Definition mirror_second : url_information :=
  {| url := "https://second.example/archlinux/";
     protocol := "https";
     last_sync := "2020-03-01T10:00:00Z";
     completion_pct := 1;
     score := 3 # 4;
     active := true |}.

(** A mirror that passes every check before the freshness check and
    whose [last_sync] is not a timestamp. *)
Definition mirror_malformed : url_information :=
  {| url := "https://broken.example/";
     protocol := "https";
     last_sync := "yesterday";
     completion_pct := 1;
     score := 1 # 4;
     active := true |}.

(** A mirror that is not active, with the same [last_sync]. *)
Definition mirror_inactive : url_information :=
  {| url := "https://inactive.example/";
     protocol := "https";
     last_sync := "yesterday";
     completion_pct := 1;
     score := 1 # 4;
     active := false |}.

(** Scenario B: the mirror of scenario A over plain http. *)
Definition mirror_http : url_information :=
  {| url := "mirror.example/";
     protocol := "http";
     last_sync := "2020-03-01T12:00:00Z";
     completion_pct := 1;
     score := 1 # 2;
     active := true |}.

(** Scenario C: a denylisted name in the url. *)
Definition mirror_denylisted : url_information :=
  {| url := "https://mirror.rackspace.com/archlinux/";
     protocol := "https";
     last_sync := "2020-03-01T12:00:00Z";
     completion_pct := 1;
     score := 1 # 2;
     active := true |}.

(** A mirror synchronised the day before. *)
Definition mirror_stale : url_information :=
  {| url := "https://slow.example/";
     protocol := "https";
     last_sync := "2020-02-29T12:00:00Z";
     completion_pct := 1;
     score := 1 # 2;
     active := true |}.

(** Two good mirrors, checked an hour before [NOW]. *)
Definition document_two : Data :=
  {| last_check := "2020-03-01T11:00:00.500Z";
     urls := [mirror_example; mirror_second] |}.

(** Scenario D: the same mirrors, checked ten hours before [NOW]. *)
Definition document_stale : Data :=
  {| last_check := "2020-03-01T02:00:00.000Z";
     urls := [mirror_example; mirror_second] |}.

(** A good mirror, then one whose [last_sync] is not a timestamp. *)
Definition document_broken : Data :=
  {| last_check := "2020-03-01T11:00:00.500Z";
     urls := [mirror_example; mirror_malformed; mirror_second] |}.

(** No mirror that meets the standards. *)
Definition document_none : Data :=
  {| last_check := "2020-03-01T11:00:00.500Z";
     urls := [mirror_http; mirror_denylisted; mirror_inactive; mirror_stale] |}.

Definition root_on_linux (d : Data) : environment :=
  {| sys_platform := "linux"; geteuid := 0; urlopen := Body d; writable := true |}.

(** The mirror list before the run. *)
Definition before : world :=
  {| mirrorlist := Some "Server = old.example/$repo/os/$arch"; trace := [] |}.

(** No mirror for which the six predicates hold: one over plain http and
    one whose [last_sync] is not a timestamp. *)
Definition document_unreadable : Data :=
  {| last_check := "2020-03-01T11:00:00.500Z";
     urls := [mirror_http; mirror_malformed] |}.


(** The server does not answer. *)
Definition offline : environment :=
  {| sys_platform := "linux"; geteuid := 0; urlopen := Unreachable; writable := true |}.

End Sample.

(** ** Vocabulary of the statements *)

(** [s] occurs in [t] as a contiguous run of characters. *)
Definition occurs_in (s t : string) : Prop :=
  exists before after, t = before ++ s ++ after.

(** The concatenation of the lines, in order. *)
Definition join (lines : list string) : string :=
  fold_right append "" lines.

(** The file operations among the events. *)
Definition is_file_operation (ev : event) : bool :=
  match ev with
  | Open _ _ | Write _ | Close => true
  | Fetch _ | Warn _ _ => false
  end.

Definition file_operations (tr : list event) : list event :=
  filter is_file_operation tr.

Definition is_open (ev : event) : bool :=
  match ev with
  | Open _ _ => true
  | _ => false
  end.

(** How many times the file was opened. *)
Definition opens (tr : list event) : nat :=
  List.length (filter is_open tr).

(** One open, write and close per line: the first open in mode [m],
    the others in append mode. *)
Fixpoint line_by_line (m : mode) (lines : list string) : list event :=
  match lines with
  | [] => []
  | line :: lines' =>
      Open MIRROR_LIST_PATH m :: Write line :: Close :: line_by_line mode_a lines'
  end.

(** The mirror list after [lines] were written over [old], the first
    one in mode [m]. *)
Definition rewritten (m : mode) (old : option string) (lines : list string)
  : option string :=
  match lines with
  | [] => old
  | _ :: _ =>
      Some (match m, old with
            | mode_a, Some kept => kept
            | _, _ => ""
            end ++ join lines)
  end.

Definition FORMAT_LAST_SYNC : string := "%Y-%m-%dT%H:%M:%SZ".
Definition FORMAT_LAST_CHECK : string := "%Y-%m-%dT%H:%M:%S.%fZ".

(** The threshold of the freshness check, in microseconds. *)
Definition threshold_us : Z := MAX_LAST_SYNC_HOURS * 3600 * 1000000.

Definition STALE_WARNING : event :=
  Warn "The number of hours since the last sync of the data, is larger than 6"
       RuntimeWarning.

Definition NOT_UPDATED_WARNING : event :=
  Warn "The mirror list was not updated" UserWarning.

(** One generator after another: the yields of [g], then [h]; when
    [g] raises, [h] is never started. *)
Fixpoint chain {A : Type} (g h : generator A) : generator A :=
  match g with
  | StopIteration => h
  | Raise e => Raise e
  | Yield a rest => Yield a (chain rest h)
  end.

(** The world a run leaves behind. *)
Definition after_run (r : (exn + unit) * world) : world := snd r.

(** The world once the document is fetched and the advisory about
    [last_check] is issued or not. *)
Definition after_advisory (w : world) (outdated : bool) : world :=
  {| mirrorlist := mirrorlist w;
     trace := trace w ++ Fetch URL :: (if outdated then [STALE_WARNING] else []) |}.

(** The end of [main]: the warning when nothing was written. *)
Definition conclude (r : (exn + bool * mode) * world) : (exn + unit) * world :=
  match r with
  | (inl e, w) => (inl e, w)
  | (inr st, w) =>
      if fst st
      then (inr tt, {| mirrorlist := mirrorlist w;
                       trace := trace w ++ [NOT_UPDATED_WARNING] |})
      else (inr tt, w)
  end.

Section Standards.

Variable strptime : string -> string -> option datetime.
Variable NOW : datetime.

(** Predicate 1 negated: some denylisted name occurs in the url. *)
Definition blacklisted (e : url_information) : bool :=
  Py.any (fun slow_url => Py.contains slow_url (url e)) URL_BLACKLIST.

(** Predicates 1 to 5 together. *)
Definition first_five (e : url_information) : bool :=
  negb (blacklisted e)
  && active e
  && String.eqb (protocol e) "https"
  && Qle_bool (inject_Z MINIMUM_COMPLETION_PERCENTAGE) (completion_pct e)
  && negb (Qle_bool (inject_Z MAX_SCORE) (score e)).

(** Predicate 6: the freshness check answers "not outdated". *)
Definition fresh (e : url_information) : bool :=
  match is_outdated strptime NOW (last_sync e) FORMAT_LAST_SYNC with
  | inr false => true
  | _ => false
  end.

(** All six predicates. *)
Definition meets_standards (e : url_information) : bool :=
  first_five e && fresh e.

(** More than the threshold lies between [t] and [NOW]. *)
Definition stale (t : datetime) : Prop :=
  elapsed_us NOW t > threshold_us.

(** The six predicates as the specification words them. *)
Definition accepted (e : url_information) : Prop :=
  (forall slow_url, In slow_url URL_BLACKLIST -> ~ occurs_in slow_url (url e))
  /\ active e = true
  /\ protocol e = "https"
  /\ (inject_Z MINIMUM_COMPLETION_PERCENTAGE <= completion_pct e)%Q
  /\ (score e < inject_Z MAX_SCORE)%Q
  /\ exists t, strptime (last_sync e) FORMAT_LAST_SYNC = Some t /\ ~ stale t.

(** An entry that one of the predicates turns down: one of the first
    five, or the freshness check answering "outdated". *)
Definition rejected (e : url_information) : Prop :=
  first_five e = false
  \/ is_outdated strptime NOW (last_sync e) FORMAT_LAST_SYNC = inr true.

(** An entry on which the freshness check is reached and raises. *)
Definition malformed (e : url_information) : Prop :=
  first_five e = true /\ strptime (last_sync e) FORMAT_LAST_SYNC = None.

(** "On every list the filter yields the lines of the entries for which
    the six predicates hold, in order, and stops", for the list [l]. *)
Definition yields_accepted_in_order (l : list url_information) : Prop :=
  updated_urls strptime NOW l
  = of_list (map mirror_path (filter meets_standards l)).

(** "When no entry of the document has all six predicates hold, the run
    returns normally and the mirror list is as it was", for the run on
    [env] from [w]. *)
Definition untouched_when_none_accepted (env : environment) (w : world) : Prop :=
  forall d,
    urlopen env = Body d ->
    (forall e, In e (urls d) -> ~ accepted e) ->
    exists w',
      main strptime NOW env w = (inr tt, w') /\ mirrorlist w' = mirrorlist w.


(** "A run that aborts with a time parse error has not changed the
    mirror list", for the run on [env] from [w]. *)
Definition untouched_on_time_parse_error (env : environment) (w : world) : Prop :=
  forall timestamp time_format w',
    main strptime NOW env w = (inl (ValueError timestamp time_format), w') ->
    mirrorlist w' = mirrorlist w.

(** "A successful run that has lines to write opens the mirror list once
    and leaves exactly the lines in it", for the run on [env] from [w]. *)
Definition opened_once_for_all_lines (env : environment) (w : world) : Prop :=
  forall d w',
    urlopen env = Body d ->
    main strptime NOW env w = (inr tt, w') ->
    map mirror_path (filter meets_standards (urls d)) <> [] ->
    opens (trace w') = (opens (trace w) + 1)%nat
    /\ mirrorlist w'
       = Some (join (map mirror_path (filter meets_standards (urls d)))).

End Standards.

(** * Properties *)

(** ** Strings *)

Lemma append_assoc (a b c : string) : (a ++ b) ++ c = a ++ (b ++ c).
Proof.
  induction a as [|x a IH]; cbn; [reflexivity|]. now rewrite IH.
Qed.

Lemma prefix_iff (s t : string) :
  String.prefix s t = true <-> exists after, t = s ++ after.
Proof.
  revert t; induction s as [|x s IH]; intros t.
  - destruct t; cbn; split; eauto.
  - destruct t as [|y t]; cbn.
    + split; [discriminate|]. intros [after H]; discriminate.
    + destruct (ascii_dec x y) as [->|Hxy].
      * rewrite IH. split; intros [after H]; exists after.
        -- now rewrite H.
        -- now injection H.
      * split; [discriminate|]. intros [after H]. injection H as H1 _.
        now elim Hxy.
Qed.

Lemma contains_unfold (s t : string) :
  Py.contains s t =
  if String.prefix s t then true
  else match t with
       | EmptyString => false
       | String _ t' => Py.contains s t'
       end.
Proof. destruct t; reflexivity. Qed.

Lemma contains_iff (s t : string) :
  Py.contains s t = true <-> occurs_in s t.
Proof.
  induction t as [|y t IH]; rewrite contains_unfold.
  - destruct (String.prefix s "") eqn:E.
    + split; [intros _|reflexivity].
      apply prefix_iff in E as [after E]. exists "", after. exact E.
    + split; [discriminate|]. intros [before [after H]].
      destruct before; [|discriminate]. cbn [append] in H.
      assert (String.prefix s "" = true) by (apply prefix_iff; eauto).
      congruence.
  - destruct (String.prefix s (String y t)) eqn:E.
    + split; [intros _|reflexivity].
      apply prefix_iff in E as [after E]. exists "", after. exact E.
    + rewrite IH. split.
      * intros [before [after H]]. exists (String y before), after.
        cbn [append]. now rewrite H.
      * intros [before [after H]]. destruct before as [|x before].
        -- cbn [append] in H.
           assert (String.prefix s (String y t) = true)
             by (apply prefix_iff; eauto).
           congruence.
        -- cbn [append] in H. injection H as _ H. now exists before, after.
Qed.

(** ** Durations *)

Lemma timedelta_new_total (d s us : Z) :
  (days (timedelta_new d s us) * 86400 + seconds (timedelta_new d s us))
    * 10 ^ 6 + microseconds (timedelta_new d s us)
  = (d * 86400 + s) * 1000000 + us.
Proof.
  unfold timedelta_new; cbn [days seconds microseconds].
  change (10 ^ 6) with 1000000.
  pose proof (Z.div_mod us 1000000 ltac:(lia)) as Hus.
  pose proof (Z.div_mod (s + us / 1000000) 86400 ltac:(lia)) as Hs.
  lia.
Qed.

Lemma sub_total (a b : datetime) :
  (days (sub a b) * 86400 + seconds (sub a b)) * 10 ^ 6
    + microseconds (sub a b)
  = elapsed_us a b.
Proof.
  unfold sub. rewrite timedelta_new_total.
  unfold elapsed_us, to_microseconds. lia.
Qed.

Lemma hours_over_threshold (e : Z) :
  negb (Qle_bool (inject_Z e / inject_Z (10 ^ 6) / inject_Z 3600)
                 (inject_Z MAX_LAST_SYNC_HOURS))
  = (threshold_us <? e).
Proof.
  unfold Qle_bool, Qdiv, Qmult, Qinv, inject_Z, MAX_LAST_SYNC_HOURS, threshold_us.
  cbn. rewrite !Z.mul_1_r. now rewrite Z.ltb_antisym.
Qed.

(** In double precision the comparison falls where it falls on the
    rationals: six hours to the microsecond are not over the threshold,
    one microsecond more is. *)
Example hours_double_at_threshold :
  map (fun us => PrimFloat.ltb (double_of_Z MAX_LAST_SYNC_HOURS) (hours_double us))
      [threshold_us - 1; threshold_us; threshold_us + 1; threshold_us + 36000000]
  = [false; false; true; true].
Proof. vm_compute. reflexivity. Qed.

Section Freshness.

Variable strptime : string -> string -> option datetime.
Variable NOW : datetime.

Lemma is_outdated_parsed (timestamp time_format : string) (t : datetime) :
  strptime timestamp time_format = Some t ->
  is_outdated strptime NOW timestamp time_format
  = inr (threshold_us <? elapsed_us NOW t).
Proof.
  intros H. unfold is_outdated. rewrite H. cbv zeta.
  unfold total_seconds. rewrite sub_total.
  now rewrite hours_over_threshold.
Qed.

Lemma is_outdated_unparsed (timestamp time_format : string) :
  strptime timestamp time_format = None ->
  is_outdated strptime NOW timestamp time_format
  = inl (ValueError timestamp time_format).
Proof. intros H. unfold is_outdated. now rewrite H. Qed.

Lemma is_outdated_answer (timestamp time_format : string) (b : bool) :
  is_outdated strptime NOW timestamp time_format = inr b ->
  exists t, strptime timestamp time_format = Some t
            /\ b = (threshold_us <? elapsed_us NOW t).
Proof.
  destruct (strptime timestamp time_format) as [t|] eqn:E.
  - rewrite (is_outdated_parsed _ _ _ E). intros [= <-]. eauto.
  - rewrite (is_outdated_unparsed _ _ E). discriminate.
Qed.

(** C5.  A timestamp that parses is outdated exactly when more than
    [MAX_LAST_SYNC_HOURS] hours lie between it and [NOW]: at exactly six
    hours it is not outdated, at six hours and 0.01 hour (36 seconds) it
    is. *)
Theorem is_outdated_strictly_over_threshold
    (timestamp time_format : string) (t : datetime) :
  strptime timestamp time_format = Some t ->
  (is_outdated strptime NOW timestamp time_format = inr true
   <-> elapsed_us NOW t > MAX_LAST_SYNC_HOURS * 3600 * 1000000)
  /\ (is_outdated strptime NOW timestamp time_format = inr false
      <-> elapsed_us NOW t <= MAX_LAST_SYNC_HOURS * 3600 * 1000000)
  /\ (elapsed_us NOW t = MAX_LAST_SYNC_HOURS * 3600 * 1000000 ->
      is_outdated strptime NOW timestamp time_format = inr false)
  /\ (elapsed_us NOW t = MAX_LAST_SYNC_HOURS * 3600 * 1000000 + 36 * 1000000 ->
      is_outdated strptime NOW timestamp time_format = inr true).
Proof.
  intros H. rewrite (is_outdated_parsed _ _ _ H).
  fold threshold_us.
  destruct (Z.ltb_spec threshold_us (elapsed_us NOW t)) as [Hlt|Hle];
    repeat split; intros; try congruence; try lia.
Qed.

(** C10.  A timestamp that parses to [NOW] or to a later instant is
    never outdated. *)
Theorem is_outdated_future_false
    (timestamp time_format : string) (t : datetime) :
  strptime timestamp time_format = Some t ->
  to_microseconds NOW <= to_microseconds t ->
  is_outdated strptime NOW timestamp time_format = inr false.
Proof.
  intros H Hle. rewrite (is_outdated_parsed _ _ _ H). f_equal.
  apply Z.ltb_ge. unfold elapsed_us, threshold_us, MAX_LAST_SYNC_HOURS. lia.
Qed.

End Freshness.

(** ** The filter *)

Section Filter.

Variable strptime : string -> string -> option datetime.
Variable NOW : datetime.

#[local] Abbreviation is_outdated := (is_outdated strptime NOW).
#[local] Abbreviation updated_urls := (updated_urls strptime NOW).
#[local] Abbreviation fresh := (fresh strptime NOW).
#[local] Abbreviation meets_standards := (meets_standards strptime NOW).
#[local] Abbreviation accepted := (accepted strptime NOW).
#[local] Abbreviation rejected := (rejected strptime NOW).
#[local] Abbreviation malformed := (malformed strptime).

(** One turn of the loop of [updated_urls]. *)
Lemma updated_urls_cons (e : url_information) (l : list url_information) :
  updated_urls (e :: l) =
  if first_five e then
    match is_outdated (last_sync e) FORMAT_LAST_SYNC with
    | inl x => Raise x
    | inr true => updated_urls l
    | inr false => Yield (mirror_path e) (updated_urls l)
    end
  else updated_urls l.
Proof.
  unfold first_five, blacklisted. cbn [updated_urls].
  destruct (Py.any _ URL_BLACKLIST); [reflexivity|].
  destruct (active e); [|reflexivity].
  destruct (String.eqb (protocol e) "https"); [|reflexivity].
  destruct (Qle_bool (inject_Z MINIMUM_COMPLETION_PERCENTAGE) (completion_pct e));
    [|reflexivity].
  destruct (Qle_bool (inject_Z MAX_SCORE) (score e)); reflexivity.
Qed.

Lemma blacklisted_iff (e : url_information) :
  blacklisted e = false <->
  forall slow_url, In slow_url URL_BLACKLIST -> ~ occurs_in slow_url (url e).
Proof.
  unfold blacklisted, Py.any. split.
  - intros H s Hs Hocc. apply contains_iff in Hocc.
    assert (existsb (fun slow_url => Py.contains slow_url (url e)) URL_BLACKLIST
            = true) by (apply existsb_exists; eauto).
    congruence.
  - intros H. apply not_true_is_false. intros Hex.
    apply existsb_exists in Hex as [s [Hs Hc]].
    apply contains_iff in Hc. exact (H s Hs Hc).
Qed.

Lemma first_five_iff (e : url_information) :
  first_five e = true <->
  (forall slow_url, In slow_url URL_BLACKLIST -> ~ occurs_in slow_url (url e))
  /\ active e = true
  /\ protocol e = "https"
  /\ (inject_Z MINIMUM_COMPLETION_PERCENTAGE <= completion_pct e)%Q
  /\ (score e < inject_Z MAX_SCORE)%Q.
Proof.
  unfold first_five.
  rewrite !andb_true_iff, !negb_true_iff, blacklisted_iff, String.eqb_eq,
    Qle_bool_iff.
  assert (Qle_bool (inject_Z MAX_SCORE) (score e) = false
          <-> (score e < inject_Z MAX_SCORE)%Q) as ->.
  { split.
    - intros H. apply Qnot_le_lt. intros Hle. apply Qle_bool_iff in Hle.
      congruence.
    - intros H. apply not_true_is_false. intros Hle. apply Qle_bool_iff in Hle.
      exact (Qlt_not_le _ _ H Hle). }
  tauto.
Qed.

Lemma fresh_iff (e : url_information) :
  fresh e = true <->
  exists t, strptime (last_sync e) FORMAT_LAST_SYNC = Some t
            /\ ~ stale NOW t.
Proof.
  unfold fresh, stale. split.
  - destruct (is_outdated (last_sync e) FORMAT_LAST_SYNC) as [x|[|]] eqn:E;
      try discriminate.
    intros _. apply is_outdated_answer in E as [t [Ht Hb]].
    exists t. split; [exact Ht|]. symmetry in Hb. apply Z.ltb_ge in Hb. lia.
  - intros [t [Ht Hn]]. rewrite (is_outdated_parsed _ _ _ _ _ Ht).
    destruct (Z.ltb_spec threshold_us (elapsed_us NOW t)); [lia|reflexivity].
Qed.

Lemma meets_standards_iff (e : url_information) :
  meets_standards e = true <-> accepted e.
Proof.
  unfold meets_standards, accepted.
  rewrite andb_true_iff, first_five_iff, fresh_iff. tauto.
Qed.

(** Turned down by a predicate: not all six hold, and the freshness
    check does not raise. *)
Lemma rejected_iff (e : url_information) :
  rejected e <-> ~ accepted e /\ ~ malformed e.
Proof.
  rewrite <- meets_standards_iff. unfold rejected, malformed.
  assert (meets_standards e
          = first_five e
            && match is_outdated (last_sync e) FORMAT_LAST_SYNC with
               | inr false => true
               | _ => false
               end) as -> by reflexivity.
  destruct (first_five e) eqn:E5; cbn [andb].
  - destruct (strptime (last_sync e) FORMAT_LAST_SYNC) as [t|] eqn:Et.
    + rewrite (is_outdated_parsed _ _ _ _ _ Et).
      destruct (threshold_us <? elapsed_us NOW t); split.
      * intros _. split; [discriminate|]. intros [_ H]. discriminate.
      * intros _. now right.
      * intros [H|H]; discriminate.
      * intros [H _]. now elim H.
    + rewrite (is_outdated_unparsed _ _ _ _ Et). split.
      * intros [H|H]; discriminate.
      * intros [_ H]. elim H. now split.
  - split.
    + intros _. split; [discriminate|]. intros [H _]. discriminate.
    + intros _. now left.
Qed.

(** What [updated_urls] does on any list: it either goes through the
    whole list and yields the lines of the entries that meet the
    standards, or stops at the first entry on which [strptime] is reached
    and raises, having yielded the lines of the entries before it that
    meet the standards. *)
Lemma updated_urls_run (l : list url_information) :
  (updated_urls l = of_list (map mirror_path (filter meets_standards l))
   /\ forall e, In e l -> ~ malformed e)
  \/ exists pre e post,
       l = (pre ++ e :: post)%list
       /\ malformed e
       /\ (forall x, In x pre -> ~ malformed x)
       /\ ending (updated_urls l) = Some (ValueError (last_sync e) FORMAT_LAST_SYNC)
       /\ yielded (updated_urls l) = map mirror_path (filter meets_standards pre).
Proof.
  induction l as [|e l IH].
  - left. split; [reflexivity|]. intros e [].
  - rewrite updated_urls_cons.
    assert (first_five e = false \/
            (exists b, is_outdated (last_sync e) FORMAT_LAST_SYNC = inr b) ->
            ~ malformed e) as Hnm.
    { intros [H5|[b Hb]] [H5' Hn]; [congruence|].
      apply is_outdated_answer in Hb as [t [Ht _]]. congruence. }
    assert (meets_standards e =
            first_five e &&
            match is_outdated (last_sync e) FORMAT_LAST_SYNC with
            | inr false => true
            | _ => false
            end) as Hm by reflexivity.
    destruct (first_five e) eqn:E5;
      [destruct (is_outdated (last_sync e) FORMAT_LAST_SYNC) as [x|[|]] eqn:E6|];
      cbn [andb] in Hm.
    + right. exists [], e, l.
      assert (strptime (last_sync e) FORMAT_LAST_SYNC = None) as Ep.
      { destruct (strptime (last_sync e) FORMAT_LAST_SYNC) eqn:Ep; [|reflexivity].
        rewrite (is_outdated_parsed _ _ _ _ _ Ep) in E6. discriminate. }
      rewrite (is_outdated_unparsed _ _ _ _ Ep) in E6. injection E6 as <-.
      split; [reflexivity|]. split; [split; [exact E5|exact Ep]|].
      split; [intros x []|]. split; reflexivity.
    + destruct IH as [[IH Hok]|(pre & x & post & -> & Hx & Hpre & Hend & Hy)].
      * left. cbn [filter]. rewrite Hm. split; [exact IH|].
        intros x [<-|Hin]; [|now apply Hok]. apply Hnm. right. eauto.
      * right. exists (e :: pre), x, post. cbn [filter app]. rewrite Hm.
        split; [reflexivity|]. split; [exact Hx|].
        split; [|split; [exact Hend|exact Hy]].
        intros y [<-|Hin]; [|now apply Hpre]. apply Hnm. right. eauto.
    + destruct IH as [[IH Hok]|(pre & x & post & -> & Hx & Hpre & Hend & Hy)].
      * left. cbn [filter]. rewrite Hm. cbn [map of_list]. rewrite IH.
        split; [reflexivity|].
        intros x [<-|Hin]; [|now apply Hok]. apply Hnm. right. eauto.
      * right. exists (e :: pre), x, post. cbn [filter app]. rewrite Hm.
        cbn [map yielded ending]. rewrite Hy.
        split; [reflexivity|]. split; [exact Hx|].
        split; [|split; [exact Hend|reflexivity]].
        intros y [<-|Hin]; [|now apply Hpre]. apply Hnm. right. eauto.
    + destruct IH as [[IH Hok]|(pre & x & post & -> & Hx & Hpre & Hend & Hy)].
      * left. cbn [filter]. rewrite Hm. split; [exact IH|].
        intros x [<-|Hin]; [|now apply Hok]. apply Hnm. now left.
      * right. exists (e :: pre), x, post. cbn [filter app]. rewrite Hm.
        split; [reflexivity|]. split; [exact Hx|].
        split; [|split; [exact Hend|exact Hy]].
        intros y [<-|Hin]; [|now apply Hpre]. apply Hnm. now left.
Qed.

(** C1, as the script has it.  On a list in which [strptime] accepts the
    [last_sync] of every entry that reaches the freshness check,
    [updated_urls] yields one line
    per entry that meets the six standards, in the order of the list, and
    nothing else; the entries that meet them are those for which the six
    predicates hold: no denylisted name in the url, active, protocol
    "https", completion at least [MINIMUM_COMPLETION_PERCENTAGE], score
    below [MAX_SCORE], and a [last_sync] that is not stale. *)
Theorem updated_urls_keeps_accepted_in_order (l : list url_information) :
  (forall e, In e l -> ~ malformed e) ->
  updated_urls l = of_list (map mirror_path (filter meets_standards l))
  /\ (forall e, In e (filter meets_standards l) <-> In e l /\ accepted e).
Proof.
  intros Hl. split.
  - destruct (updated_urls_run l)
      as [[H _]|(pre & e & post & Heq & He & _)]; [exact H|].
    exfalso. apply (Hl e); [|exact He]. rewrite Heq.
    apply in_or_app. right. now left.
  - intros e. rewrite filter_In, meets_standards_iff. tauto.
Qed.

(** C6.  Every line [updated_urls] yields is made for an entry of the
    list that meets the standards, and is "Server = ", the url of the
    entry, the text "$repo/os/$arch" and a line feed; when no entry makes
    [strptime] raise, the lines are those of the entries that meet the
    standards, one each, in order. *)
Theorem yielded_line_is_server_line (l : list url_information) :
  (forall line, In line (yielded (updated_urls l)) ->
     exists e, In e l /\ meets_standards e = true
               /\ line = "Server = " ++ url e ++ "$repo/os/$arch" ++ Py.LF)
  /\ ((forall e, In e l -> ~ malformed e) ->
      yielded (updated_urls l)
      = map (fun e => "Server = " ++ url e ++ "$repo/os/$arch" ++ Py.LF)
            (filter meets_standards l)).
Proof.
  assert (forall xs : list string, yielded (of_list xs) = xs) as Hyl.
  { induction xs as [|x xs IH]; cbn; [reflexivity|now rewrite IH]. }
  destruct (updated_urls_run l)
    as [[H Hok]|(pre & x & post & Heq & Hx & _ & _ & Hy)].
  - rewrite H, Hyl. split; [|reflexivity].
    intros line Hin. apply in_map_iff in Hin as [e [<- He]].
    apply filter_In in He as [He Hm]. now exists e.
  - split.
    + rewrite Hy. intros line Hin. apply in_map_iff in Hin as [e [<- He]].
      apply filter_In in He as [He Hm]. exists e. split; [|now split].
      rewrite Heq. apply in_or_app. now left.
    + intros Hl. exfalso. apply (Hl x); [|exact Hx]. rewrite Heq.
      apply in_or_app. right. now left.
Qed.

End Filter.

(** C9.  The freshness check comes last: [updated_urls] asks [strptime]
    about the [last_sync] of an entry only when the entry passes the five
    checks before it.  Two parsers that agree on those entries give the
    same generator, and when every [last_sync] that does not parse sits on
    an entry that one of the five checks turns down, nothing is raised. *)
Theorem last_sync_parsed_after_first_five
    (strptime : string -> string -> option datetime) (NOW : datetime)
    (l : list url_information) :
  (forall strptime',
     (forall e, In e l -> first_five e = true ->
        strptime' (last_sync e) FORMAT_LAST_SYNC
        = strptime (last_sync e) FORMAT_LAST_SYNC) ->
     updated_urls strptime' NOW l = updated_urls strptime NOW l)
  /\ ((forall e, In e l -> strptime (last_sync e) FORMAT_LAST_SYNC = None ->
        first_five e = false) ->
      ending (updated_urls strptime NOW l) = None).
Proof.
  split.
  - intros strptime' Hagree. induction l as [|e l IH]; [reflexivity|].
    rewrite !updated_urls_cons.
    destruct (first_five e) eqn:E5.
    + unfold is_outdated. rewrite (Hagree e (or_introl eq_refl) E5).
      rewrite IH; [reflexivity|]. intros x Hx. apply Hagree. now right.
    + apply IH. intros x Hx. apply Hagree. now right.
  - intros Hl.
    destruct (updated_urls_run strptime NOW l)
      as [[H _]|(pre & x & post & Heq & [Hx5 Hxn] & _)].
    + rewrite H. generalize (map (mirror_path) (filter (meets_standards strptime NOW) l)).
      induction l0 as [|y ys IH]; [reflexivity|exact IH].
    + assert (first_five x = false); [|congruence].
      apply Hl; [|exact Hxn]. rewrite Heq. apply in_or_app. right. now left.
Qed.

(** ** The loop of [main] *)

Lemma append_empty_r (a : string) : a ++ "" = a.
Proof. induction a as [|x a IH]; cbn; [reflexivity|now rewrite IH]. Qed.

Lemma yielded_of_list {A : Type} (xs : list A) : yielded (of_list xs) = xs.
Proof. induction xs as [|x xs IH]; cbn; [reflexivity|now rewrite IH]. Qed.

Lemma ending_of_list {A : Type} (xs : list A) : ending (of_list xs) = None.
Proof. induction xs as [|x xs IH]; [reflexivity|exact IH]. Qed.

Lemma file_operations_app (a b : list event) :
  file_operations (a ++ b) = (file_operations a ++ file_operations b)%list.
Proof. apply filter_app. Qed.

Lemma file_operations_line_by_line (m : mode) (lines : list string) :
  file_operations (line_by_line m lines) = line_by_line m lines.
Proof.
  revert m; induction lines as [|x xs IH]; intros m; [reflexivity|].
  cbn. now rewrite IH.
Qed.

Lemma opens_line_by_line (m : mode) (lines : list string) :
  opens (line_by_line m lines) = List.length lines.
Proof.
  unfold opens. revert m; induction lines as [|x xs IH]; intros m; [reflexivity|].
  cbn. now rewrite IH.
Qed.

Section Loop.

Variable env : environment.

(** The loop on a mirror list that can be opened: every yielded line is
    written, each between an open and a close of its own, and the loop
    ends the way the generator ends. *)
Lemma for_mirror_path_writable (g : generator string) :
  writable env = true ->
  forall (have_failed : bool) (m : mode) (w : world),
  for_mirror_path env g have_failed m w =
  (match ending g with
   | Some e => inl e
   | None => inr (match yielded g with
                  | [] => (have_failed, m)
                  | _ :: _ => (false, mode_a)
                  end)
   end,
   {| mirrorlist := rewritten m (mirrorlist w) (yielded g);
      trace := trace w ++ line_by_line m (yielded g) |}).
Proof.
  intros Hw. induction g as [|e|a rest IH]; intros have_failed m w.
  - cbn. unfold ret. destruct w as [ml tr]. cbn. now rewrite app_nil_r.
  - cbn. unfold raise. destruct w as [ml tr]. cbn. now rewrite app_nil_r.
  - cbn [for_mirror_path]. unfold bind at 1, open_mirrorlist. rewrite Hw.
    unfold bind at 1, write. unfold bind at 1, close, emit.
    rewrite IH. cbn [mirrorlist trace yielded ending line_by_line].
    f_equal.
    + destruct (ending rest); [reflexivity|]. now destruct (yielded rest).
    + f_equal.
      * unfold rewritten.
        destruct (yielded rest) as [|b ys].
        -- cbn [join fold_right]. rewrite append_empty_r.
           destruct m; [reflexivity|]. now destruct (mirrorlist w).
        -- cbn [join fold_right].
           destruct m; [|destruct (mirrorlist w)]; now rewrite append_assoc.
      * rewrite <- !app_assoc. reflexivity.
Qed.

(** The loop on a mirror list that cannot be opened: the first line the
    generator yields ends it with [OSError]. *)
Lemma for_mirror_path_readonly (g : generator string) :
  writable env = false ->
  forall (have_failed : bool) (m : mode) (w : world),
  for_mirror_path env g have_failed m w =
  (match g with
   | StopIteration => inr (have_failed, m)
   | Raise e => inl e
   | Yield _ _ => inl OSError
   end, w).
Proof.
  intros Hw have_failed m w. destruct g as [|e|a rest]; try reflexivity.
  cbn [for_mirror_path]. unfold bind at 1, open_mirrorlist. now rewrite Hw.
Qed.

End Loop.

(** ** Whole runs *)

Section Run.

Variable strptime : string -> string -> option datetime.
Variable NOW : datetime.

#[local] Abbreviation is_outdated := (is_outdated strptime NOW).
#[local] Abbreviation updated_urls := (updated_urls strptime NOW).
#[local] Abbreviation main := (main strptime NOW).
#[local] Abbreviation meets_standards := (meets_standards strptime NOW).
#[local] Abbreviation accepted := (accepted strptime NOW).
#[local] Abbreviation rejected := (rejected strptime NOW).
#[local] Abbreviation malformed := (malformed strptime).

Lemma main_precondition_failed (env : environment) (w : world) :
  is_platform_linux env = false \/ geteuid env <> 0 ->
  exists msg, main env w = (inl (RuntimeError msg), w).
Proof.
  intros H. unfold main.
  destruct (is_platform_linux env); cbn [negb].
  - destruct H as [H|H]; [discriminate|].
    apply Z.eqb_neq in H. rewrite H. cbn [negb]. eexists. reflexivity.
  - eexists. reflexivity.
Qed.

Lemma main_fetch_failed (env : environment) (w : world) :
  is_platform_linux env = true -> geteuid env = 0 ->
  (forall d, urlopen env <> Body d) ->
  exists e, (e = URLError \/ e = JSONDecodeError)
            /\ main env w = (inl e, after_advisory w false).
Proof.
  intros Hp Hu Hr. unfold main, after_advisory.
  rewrite Hp, Hu. cbn [negb Z.eqb].
  unfold bind at 1, load_data_from_url. unfold bind at 1, emit.
  destruct (urlopen env) as [| |d].
  - exists URLError. split; [now left|reflexivity].
  - exists JSONDecodeError. split; [now right|reflexivity].
  - now elim (Hr d).
Qed.

Lemma main_last_check_unparsed (env : environment) (w : world) (d : Data) :
  is_platform_linux env = true -> geteuid env = 0 -> urlopen env = Body d ->
  strptime (last_check d) FORMAT_LAST_CHECK = None ->
  main env w = (inl (ValueError (last_check d) FORMAT_LAST_CHECK),
                after_advisory w false).
Proof.
  intros Hp Hu Hr Hn. unfold main, after_advisory.
  rewrite Hp, Hu. cbn [negb Z.eqb].
  unfold bind at 1, load_data_from_url. unfold bind at 1, emit. rewrite Hr.
  unfold ret at 1. unfold bind at 1.
  fold FORMAT_LAST_CHECK.
  rewrite (is_outdated_unparsed _ _ _ _ Hn). reflexivity.
Qed.

Lemma main_unfold (env : environment) (w : world) (d : Data) (b : bool) :
  is_platform_linux env = true -> geteuid env = 0 -> urlopen env = Body d ->
  is_outdated (last_check d) FORMAT_LAST_CHECK = inr b ->
  main env w =
  conclude (for_mirror_path env (updated_urls (urls d)) true mode_w
                            (after_advisory w b)).
Proof.
  intros Hp Hu Hr Hb. unfold main, after_advisory, conclude.
  rewrite Hp, Hu. cbn [negb Z.eqb].
  unfold bind at 1, load_data_from_url. unfold bind at 1, emit. rewrite Hr.
  unfold ret at 1. unfold bind at 1.
  fold FORMAT_LAST_CHECK. rewrite Hb. unfold lift, ret at 1.
  unfold bind at 1.
  destruct b.
  - unfold warn, emit. cbn [mirrorlist trace]. rewrite <- app_assoc.
    change ("The number of hours since the last sync of the data,"
            ++ " is larger than " ++ Py.str MAX_LAST_SYNC_HOURS)
      with "The number of hours since the last sync of the data, is larger than 6".
    fold STALE_WARNING. cbn [app]. unfold bind.
    destruct (for_mirror_path env _ true mode_w _) as [[e|st] w']; [reflexivity|].
    destruct (fst st); reflexivity.
  - unfold ret at 1. unfold bind.
    destruct (for_mirror_path env _ true mode_w _) as [[e|st] w']; [reflexivity|].
    destruct (fst st); reflexivity.
Qed.

Lemma all_rejected_stop (l : list url_information) :
  (forall e, In e l -> rejected e) ->
  updated_urls l = StopIteration.
Proof.
  induction l as [|e l IH]; intros H; [reflexivity|].
  rewrite updated_urls_cons.
  assert (updated_urls l = StopIteration) as -> by (apply IH; intros; apply H; now right).
  destruct (H e (or_introl eq_refl)) as [H5|H6].
  - now rewrite H5.
  - rewrite H6. now destruct (first_five e).
Qed.



(** C7.  [main] first checks the platform and then the user: off linux
    it raises the [RuntimeError] about the platform, on linux without
    root it raises the one about the user; in both cases nothing has
    happened yet: nothing fetched, no warning, the mirror list as it was. *)
Theorem main_refuses_before_fetching (env : environment) (w : world) :
  (is_platform_linux env = false ->
   main env w = (inl (RuntimeError "The running platform is not linux"), w))
  /\ (is_platform_linux env = true -> geteuid env <> 0 ->
      main env w
      = (inl (RuntimeError "The user who is running the script needs to be root"),
         w)).
Proof.
  unfold main. split.
  - intros ->. reflexivity.
  - intros -> H. apply Z.eqb_neq in H. rewrite H. reflexivity.
Qed.

(** C4, as the script has it.  When every entry fails one of the six
    predicates and none makes the freshness check raise, the generator
    yields nothing, [main] returns normally, the mirror list is as it was,
    no file operation took place and the last thing the run did was to
    warn that the mirror list was not updated. *)
Theorem nothing_accepted_nothing_written
    (env : environment) (w : world) (d : Data) :
  is_platform_linux env = true -> geteuid env = 0 -> urlopen env = Body d ->
  strptime (last_check d) FORMAT_LAST_CHECK <> None ->
  (forall e, In e (urls d) -> ~ accepted e) ->
  (forall e, In e (urls d) -> ~ malformed e) ->
  updated_urls (urls d) = StopIteration
  /\ exists w' outdated,
       main env w = (inr tt, w')
       /\ mirrorlist w' = mirrorlist w
       /\ trace w' = (trace w
                      ++ Fetch URL :: (if outdated : bool then [STALE_WARNING] else [])
                      ++ [NOT_UPDATED_WARNING])%list
       /\ file_operations (trace w') = file_operations (trace w).
Proof.
  intros Hp Hu Hr Hc Hna Hnm.
  assert (forall e, In e (urls d) -> rejected e) as Hl
    by (intros e He; apply rejected_iff; split; [now apply Hna|now apply Hnm]).
  pose proof (all_rejected_stop _ Hl) as Hstop. split; [exact Hstop|].
  destruct (strptime (last_check d) FORMAT_LAST_CHECK) as [t|] eqn:Et;
    [|now elim Hc].
  pose proof (is_outdated_parsed strptime NOW _ _ _ Et) as Hb.
  rewrite (main_unfold env w d _ Hp Hu Hr Hb), Hstop.
  cbn [for_mirror_path]. unfold ret, conclude, after_advisory. cbn [fst mirrorlist trace].
  do 2 eexists. split; [reflexivity|]. cbn [mirrorlist trace].
  split; [reflexivity|]. split.
  - rewrite <- app_assoc. reflexivity.
  - rewrite !file_operations_app.
    destruct (threshold_us <? elapsed_us NOW t);
      unfold file_operations, STALE_WARNING, NOT_UPDATED_WARNING;
      cbn [filter is_file_operation]; now rewrite !app_nil_r.
Qed.


(** A run that got past the two checks of [main] and did not end on a
    [RuntimeError]. *)
Lemma main_past_checks (env : environment) (w w' : world) (r : exn + unit) :
  main env w = (r, w') ->
  (forall msg, r <> inl (RuntimeError msg)) ->
  is_platform_linux env = true /\ geteuid env = 0.
Proof.
  intros Hrun Hr.
  destruct (is_platform_linux env) eqn:Hp.
  - split; [reflexivity|]. destruct (Z.eq_dec (geteuid env) 0) as [|Hu]; [assumption|].
    destruct (main_precondition_failed env w (or_intror Hu)) as [msg Hm].
    rewrite Hm in Hrun. injection Hrun as <- _. now elim (Hr msg).
  - destruct (main_precondition_failed env w (or_introl Hp)) as [msg Hm].
    rewrite Hm in Hrun. injection Hrun as <- _. now elim (Hr msg).
Qed.

(** The same run got a document from the server when it did not end on
    an error of the fetch either. *)
Lemma main_past_fetch (env : environment) (w w' : world) (r : exn + unit) :
  main env w = (r, w') ->
  (forall msg, r <> inl (RuntimeError msg)) ->
  r <> inl URLError -> r <> inl JSONDecodeError ->
  is_platform_linux env = true /\ geteuid env = 0
  /\ exists d, urlopen env = Body d.
Proof.
  intros Hrun Hr Hu Hj.
  destruct (main_past_checks env w w' r Hrun Hr) as [Hp He].
  split; [exact Hp|]. split; [exact He|].
  destruct (urlopen env) as [| |d] eqn:Ho; [| |eauto].
  - destruct (main_fetch_failed env w Hp He) as (e & [-> | ->] & Hm);
      [intros d; congruence| |]; rewrite Hm in Hrun; injection Hrun as <- _;
      congruence.
  - destruct (main_fetch_failed env w Hp He) as (e & [-> | ->] & Hm);
      [intros d; congruence| |]; rewrite Hm in Hrun; injection Hrun as <- _;
      congruence.
Qed.

(** C2, as the script has it.  A run that ends on the [ValueError] of
    [strptime] got a document, and either [last_check] did not parse and
    the mirror list is as it was, or the error came from the first entry
    on which the freshness check is reached and raises: then the mirror
    list is as it was when no entry before that one meets the standards,
    and holds the lines of those that do otherwise. *)
Theorem time_parse_error_keeps_earlier_lines
    (env : environment) (w w' : world) (timestamp time_format : string) :
  main env w = (inl (ValueError timestamp time_format), w') ->
  exists d,
    urlopen env = Body d
    /\ ((strptime (last_check d) FORMAT_LAST_CHECK = None
         /\ mirrorlist w' = mirrorlist w)
        \/ exists pre e post,
             urls d = (pre ++ e :: post)%list
             /\ malformed e
             /\ (forall x, In x pre -> ~ malformed x)
             /\ mirrorlist w'
                = match map mirror_path (filter meets_standards pre) with
                  | [] => mirrorlist w
                  | lines => Some (join lines)
                  end).
Proof.
  intros Hrun.
  destruct (main_past_fetch env w w' _ Hrun) as (Hp & Hu & d & Hd);
    try discriminate.
  exists d. split; [exact Hd|].
  destruct (strptime (last_check d) FORMAT_LAST_CHECK) as [t|] eqn:Et.
  - right.
    pose proof (is_outdated_parsed strptime NOW _ _ _ Et) as Hb.
    rewrite (main_unfold env w d _ Hp Hu Hd Hb) in Hrun.
    assert (forall old lines,
              rewritten mode_w old lines
              = match lines with [] => old | x :: xs => Some (join (x :: xs)) end)
      as Hrw by (intros old [|x xs]; reflexivity).
    destruct (updated_urls_run strptime NOW (urls d))
      as [[Hg _]|(pre & e & post & Heq & He & Hpre & Hend & Hy)].
    + exfalso. destruct (writable env) eqn:Hw.
      * rewrite (for_mirror_path_writable env _ Hw), Hg, ending_of_list in Hrun.
        unfold conclude in Hrun.
        destruct (fst _) in Hrun; discriminate.
      * rewrite (for_mirror_path_readonly env _ Hw), Hg in Hrun.
        unfold conclude in Hrun.
        destruct (map mirror_path _) in Hrun; cbn in Hrun; discriminate.
    + exists pre, e, post. repeat (split; [assumption|]).
      rewrite <- Hrw, <- Hy.
      destruct (writable env) eqn:Hw.
      * rewrite (for_mirror_path_writable env _ Hw), Hend in Hrun.
        unfold conclude in Hrun. apply (f_equal snd) in Hrun.
        cbn [snd] in Hrun. rewrite <- Hrun. reflexivity.
      * rewrite (for_mirror_path_readonly env _ Hw) in Hrun.
        destruct (updated_urls (urls d)) as [|x|a rest];
          cbn in Hrun; try discriminate.
        apply (f_equal snd) in Hrun. cbn [snd] in Hrun. rewrite <- Hrun.
        reflexivity.
  - left. split; [reflexivity|].
    rewrite (main_last_check_unparsed env w d Hp Hu Hd Et) in Hrun.
    apply (f_equal snd) in Hrun. cbn [snd] in Hrun. rewrite <- Hrun.
    reflexivity.
Qed.

(** C3, as the script has it.  When [main] returns normally and some
    entry meets the standards, the file operations of the run are one
    open, one write and one close for each line, in the order of the
    lines, the first open in mode "w" and the others in mode "a"; the file
    was opened as many times as there are lines, and the mirror list holds
    the lines and nothing else. *)
Theorem writer_reopens_for_each_line
    (env : environment) (w w' : world) (d : Data) :
  urlopen env = Body d ->
  main env w = (inr tt, w') ->
  map mirror_path (filter meets_standards (urls d)) <> [] ->
  file_operations (trace w')
  = (file_operations (trace w)
     ++ line_by_line mode_w (map mirror_path (filter meets_standards (urls d))))%list
  /\ opens (trace w')
     = (opens (trace w)
        + List.length (map mirror_path (filter meets_standards (urls d))))%nat
  /\ mirrorlist w'
     = Some (join (map mirror_path (filter meets_standards (urls d)))).
Proof.
  intros Hd Hrun Hlines.
  destruct (main_past_checks env w w' _ Hrun) as (Hp & Hu); [discriminate|].
  destruct (strptime (last_check d) FORMAT_LAST_CHECK) as [t|] eqn:Et.
  2:{ rewrite (main_last_check_unparsed env w d Hp Hu Hd Et) in Hrun.
      discriminate. }
  pose proof (is_outdated_parsed strptime NOW _ _ _ Et) as Hb.
  rewrite (main_unfold env w d _ Hp Hu Hd Hb) in Hrun.
  set (lines := map mirror_path (filter meets_standards (urls d))) in *.
  destruct (updated_urls_run strptime NOW (urls d))
    as [[Hg _]|(pre & e & post & Heq & He & Hpre & Hend & Hy)].
  - fold lines in Hg. rewrite Hg in Hrun.
    destruct (writable env) eqn:Hw.
    + rewrite (for_mirror_path_writable env _ Hw), ending_of_list,
        yielded_of_list in Hrun.
      assert (match lines with
              | [] => (true, mode_w)
              | _ :: _ => (false, mode_a)
              end = (false, mode_a)) as Hst
        by (destruct lines; [now elim Hlines|reflexivity]).
      rewrite Hst in Hrun. unfold conclude in Hrun. cbn [fst] in Hrun.
      apply (f_equal snd) in Hrun. cbn [snd] in Hrun. rewrite <- Hrun.
      unfold after_advisory. cbn [mirrorlist trace]. split; [|split].
      * rewrite !file_operations_app, file_operations_line_by_line.
        f_equal. rewrite <- (app_nil_r (file_operations (trace w))) at 2.
        f_equal.
        destruct (threshold_us <? elapsed_us NOW t); reflexivity.
      * unfold opens. rewrite !filter_app, !length_app.
        fold (opens (line_by_line mode_w lines)).
        rewrite opens_line_by_line.
        destruct (threshold_us <? elapsed_us NOW t); cbn; lia.
      * unfold rewritten. destruct lines; [now elim Hlines|reflexivity].
    + rewrite (for_mirror_path_readonly env _ Hw) in Hrun.
      destruct lines as [|x xs]; [now elim Hlines|]. discriminate.
  - exfalso. destruct (writable env) eqn:Hw.
    + rewrite (for_mirror_path_writable env _ Hw), Hend in Hrun. discriminate.
    + rewrite (for_mirror_path_readonly env _ Hw) in Hrun.
      destruct (updated_urls (urls d)); cbn in Hend; discriminate.
Qed.

End Run.

(** * Sample runs

    The theorems above at the sample data, with [Sample.strptime] for
    the parser and [Sample.NOW] for the instant of the run. *)

Lemma updated_urls_keeps_accepted_in_order_witness :
  (forall e,
     In e [Sample.mirror_example; Sample.mirror_inactive; Sample.mirror_second] ->
     ~ malformed Sample.strptime e)
  /\ updated_urls Sample.strptime Sample.NOW
       [Sample.mirror_example; Sample.mirror_inactive; Sample.mirror_second]
     = Yield ("Server = mirror.example/$repo/os/$arch" ++ Py.LF)
         (Yield ("Server = https://second.example/archlinux/$repo/os/$arch" ++ Py.LF)
            StopIteration).
Proof.
  assert (forall e,
            In e [Sample.mirror_example; Sample.mirror_inactive; Sample.mirror_second] ->
            ~ malformed Sample.strptime e) as H.
  { intros e [<-|[<-|[<-|[]]]] [H5 Hn]; vm_compute in H5, Hn; discriminate. }
  split; [exact H|].
  exact (proj1 (updated_urls_keeps_accepted_in_order
                  Sample.strptime Sample.NOW _ H)).
Defined.

Lemma is_outdated_strictly_over_threshold_witness :
  Sample.strptime "2020-03-01T06:00:00Z" FORMAT_LAST_SYNC
  = Some (mk_datetime 2020 3 1 6 0 0 0)
  /\ is_outdated Sample.strptime Sample.NOW "2020-03-01T06:00:00Z" FORMAT_LAST_SYNC
     = inr false
  /\ Sample.strptime "2020-03-01T05:59:24Z" FORMAT_LAST_SYNC
     = Some (mk_datetime 2020 3 1 5 59 24 0)
  /\ is_outdated Sample.strptime Sample.NOW "2020-03-01T05:59:24Z" FORMAT_LAST_SYNC
     = inr true.
Proof.
  split; [reflexivity|]. split.
  - apply (is_outdated_strictly_over_threshold Sample.strptime Sample.NOW
             "2020-03-01T06:00:00Z" FORMAT_LAST_SYNC
             (mk_datetime 2020 3 1 6 0 0 0) eq_refl).
    reflexivity.
  - split; [reflexivity|].
    apply (is_outdated_strictly_over_threshold Sample.strptime Sample.NOW
             "2020-03-01T05:59:24Z" FORMAT_LAST_SYNC
             (mk_datetime 2020 3 1 5 59 24 0) eq_refl).
    reflexivity.
Defined.

Lemma is_outdated_future_false_witness :
  Sample.strptime "2020-03-02T00:00:00Z" FORMAT_LAST_SYNC
  = Some (mk_datetime 2020 3 2 0 0 0 0)
  /\ to_microseconds Sample.NOW <= to_microseconds (mk_datetime 2020 3 2 0 0 0 0)
  /\ is_outdated Sample.strptime Sample.NOW "2020-03-02T00:00:00Z" FORMAT_LAST_SYNC
     = inr false.
Proof.
  split; [reflexivity|]. split; [vm_compute; discriminate|].
  apply (is_outdated_future_false Sample.strptime Sample.NOW
           "2020-03-02T00:00:00Z" FORMAT_LAST_SYNC
           (mk_datetime 2020 3 2 0 0 0 0) eq_refl).
  vm_compute; discriminate.
Defined.

(** Scenario A of the specification. *)
Lemma yielded_line_is_server_line_witness :
  (forall e, In e [Sample.mirror_example] -> ~ malformed Sample.strptime e)
  /\ yielded (updated_urls Sample.strptime Sample.NOW [Sample.mirror_example])
     = ["Server = mirror.example/$repo/os/$arch" ++ Py.LF].
Proof.
  assert (forall e, In e [Sample.mirror_example] -> ~ malformed Sample.strptime e)
    as H.
  { intros e [<-|[]] [H5 Hn]; vm_compute in Hn; discriminate. }
  split; [exact H|].
  exact (proj2 (yielded_line_is_server_line
                  Sample.strptime Sample.NOW [Sample.mirror_example]) H).
Defined.

Lemma last_sync_parsed_after_first_five_witness :
  (forall e, In e [Sample.mirror_inactive; Sample.mirror_example] ->
     Sample.strptime (last_sync e) FORMAT_LAST_SYNC = None ->
     first_five e = false)
  /\ Sample.strptime (last_sync Sample.mirror_inactive) FORMAT_LAST_SYNC = None
  /\ ending (updated_urls Sample.strptime Sample.NOW
               [Sample.mirror_inactive; Sample.mirror_example]) = None.
Proof.
  assert (forall e, In e [Sample.mirror_inactive; Sample.mirror_example] ->
            Sample.strptime (last_sync e) FORMAT_LAST_SYNC = None ->
            first_five e = false) as H.
  { intros e [<-|[<-|[]]] Hn; [reflexivity|vm_compute in Hn; discriminate]. }
  split; [exact H|]. split; [reflexivity|].
  exact (proj2 (last_sync_parsed_after_first_five Sample.strptime Sample.NOW
                  [Sample.mirror_inactive; Sample.mirror_example]) H).
Defined.

(** The claim C2 fails on the script: the generator is consumed line by
    line, so the line of a good mirror is on disk, over the old content,
    when a later entry makes [strptime] raise. *)
Lemma time_parse_error_after_first_write :
  ~ untouched_on_time_parse_error Sample.strptime Sample.NOW
      (Sample.root_on_linux Sample.document_broken) Sample.before.
Proof.
  intros H.
  specialize (H "yesterday" FORMAT_LAST_SYNC _ eq_refl).
  vm_compute in H. discriminate.
Qed.

Lemma time_parse_error_keeps_earlier_lines_witness :
  main Sample.strptime Sample.NOW
       (Sample.root_on_linux Sample.document_broken) Sample.before
  = (inl (ValueError "yesterday" FORMAT_LAST_SYNC),
     {| mirrorlist := Some ("Server = mirror.example/$repo/os/$arch" ++ Py.LF);
        trace := [Fetch URL;
                  Open MIRROR_LIST_PATH mode_w;
                  Write ("Server = mirror.example/$repo/os/$arch" ++ Py.LF);
                  Close] |})
  /\ exists d,
       urlopen (Sample.root_on_linux Sample.document_broken) = Body d
       /\ ((Sample.strptime (last_check d) FORMAT_LAST_CHECK = None
            /\ Some ("Server = mirror.example/$repo/os/$arch" ++ Py.LF)
               = mirrorlist Sample.before)
           \/ exists pre e post,
                urls d = (pre ++ e :: post)%list
                /\ malformed Sample.strptime e
                /\ (forall x, In x pre -> ~ malformed Sample.strptime x)
                /\ Some ("Server = mirror.example/$repo/os/$arch" ++ Py.LF)
                   = match map mirror_path
                             (filter (meets_standards Sample.strptime Sample.NOW) pre)
                     with
                     | [] => mirrorlist Sample.before
                     | lines => Some (join lines)
                     end).
Proof.
  split; [reflexivity|].
  exact (time_parse_error_keeps_earlier_lines Sample.strptime Sample.NOW
           (Sample.root_on_linux Sample.document_broken) Sample.before _
           "yesterday" FORMAT_LAST_SYNC eq_refl).
Defined.

(** The claim C3 fails on the script: the file is opened once for each
    line, twice for two lines. *)
Lemma two_lines_two_opens :
  ~ opened_once_for_all_lines Sample.strptime Sample.NOW
      (Sample.root_on_linux Sample.document_two) Sample.before.
Proof.
  intros H.
  destruct (H Sample.document_two _ eq_refl eq_refl) as [Hopens _].
  - vm_compute. discriminate.
  - vm_compute in Hopens. discriminate.
Qed.

Lemma writer_reopens_for_each_line_witness :
  urlopen (Sample.root_on_linux Sample.document_two) = Body Sample.document_two
  /\ fst (main Sample.strptime Sample.NOW
            (Sample.root_on_linux Sample.document_two) Sample.before) = inr tt
  /\ map mirror_path
       (filter (meets_standards Sample.strptime Sample.NOW)
               (urls Sample.document_two)) <> []
  /\ file_operations
       (trace (snd (main Sample.strptime Sample.NOW
                      (Sample.root_on_linux Sample.document_two) Sample.before)))
     = [Open MIRROR_LIST_PATH mode_w;
        Write ("Server = mirror.example/$repo/os/$arch" ++ Py.LF);
        Close;
        Open MIRROR_LIST_PATH mode_a;
        Write ("Server = https://second.example/archlinux/$repo/os/$arch" ++ Py.LF);
        Close]
  /\ mirrorlist (snd (main Sample.strptime Sample.NOW
                        (Sample.root_on_linux Sample.document_two) Sample.before))
     = Some ("Server = mirror.example/$repo/os/$arch" ++ Py.LF
             ++ "Server = https://second.example/archlinux/$repo/os/$arch" ++ Py.LF).
Proof.
  assert (map mirror_path
            (filter (meets_standards Sample.strptime Sample.NOW)
                    (urls Sample.document_two)) <> []) as Hne
    by (vm_compute; discriminate).
  split; [reflexivity|]. split; [reflexivity|]. split; [exact Hne|].
  destruct (writer_reopens_for_each_line Sample.strptime Sample.NOW
              (Sample.root_on_linux Sample.document_two) Sample.before _
              Sample.document_two eq_refl eq_refl Hne) as (Hops & _ & Hfile).
  split; [exact Hops|exact Hfile].
Defined.

(** Scenarios B and C of the specification, and two more rejections. *)
Lemma nothing_accepted_nothing_written_witness :
  is_platform_linux (Sample.root_on_linux Sample.document_none) = true
  /\ geteuid (Sample.root_on_linux Sample.document_none) = 0
  /\ Sample.strptime (last_check Sample.document_none) FORMAT_LAST_CHECK <> None
  /\ (forall e, In e (urls Sample.document_none) ->
        ~ accepted Sample.strptime Sample.NOW e)
  /\ (forall e, In e (urls Sample.document_none) ->
        ~ malformed Sample.strptime e)
  /\ updated_urls Sample.strptime Sample.NOW (urls Sample.document_none)
     = StopIteration
  /\ exists w' outdated,
       main Sample.strptime Sample.NOW
            (Sample.root_on_linux Sample.document_none) Sample.before
       = (inr tt, w')
       /\ mirrorlist w' = mirrorlist Sample.before
       /\ trace w' = (trace Sample.before
                      ++ Fetch URL :: (if outdated : bool then [STALE_WARNING] else [])
                      ++ [NOT_UPDATED_WARNING])%list
       /\ file_operations (trace w') = file_operations (trace Sample.before).
Proof.
  assert (forall e, In e (urls Sample.document_none) ->
            rejected Sample.strptime Sample.NOW e) as Hrej.
  { intros e [<-|[<-|[<-|[<-|[]]]]];
      try (left; reflexivity); right; reflexivity. }
  assert (Sample.strptime (last_check Sample.document_none) FORMAT_LAST_CHECK
          <> None) as Hc by (vm_compute; discriminate).
  assert (forall e, In e (urls Sample.document_none) ->
            ~ accepted Sample.strptime Sample.NOW e) as Hna
    by (intros e He; exact (proj1 (proj1 (rejected_iff _ _ e) (Hrej e He)))).
  assert (forall e, In e (urls Sample.document_none) ->
            ~ malformed Sample.strptime e) as Hnm
    by (intros e He; exact (proj2 (proj1 (rejected_iff _ _ e) (Hrej e He)))).
  split; [reflexivity|]. split; [reflexivity|]. split; [exact Hc|].
  split; [exact Hna|]. split; [exact Hnm|].
  exact (nothing_accepted_nothing_written Sample.strptime Sample.NOW
           (Sample.root_on_linux Sample.document_none) Sample.before
           Sample.document_none eq_refl eq_refl eq_refl Hc Hna Hnm).
Defined.

(** The claim C4 fails on the script: an entry whose [last_sync] is not a
    timestamp does not have the six predicates hold, and the run ends on
    the [ValueError] of [strptime] instead of returning. *)
Lemma none_accepted_yet_time_parse_error :
  ~ untouched_when_none_accepted Sample.strptime Sample.NOW
      (Sample.root_on_linux Sample.document_unreadable) Sample.before.
Proof.
  intros H.
  destruct (H Sample.document_unreadable eq_refl) as (w' & Hrun & _).
  - intros e [<-|[<-|[]]] (_ & _ & Hprot & _ & _ & t & Ht & _).
    + vm_compute in Hprot. discriminate.
    + vm_compute in Ht. discriminate.
  - vm_compute in Hrun. discriminate.
Qed.

(** The claim C1 fails on the script: on a list with an entry that
    reaches the freshness check with a [last_sync] that is not a
    timestamp, the generator raises instead of going on to the entries
    that meet the standards. *)
Lemma malformed_entry_stops_the_filter :
  ~ yields_accepted_in_order Sample.strptime Sample.NOW
      [Sample.mirror_malformed; Sample.mirror_example].
Proof.
  unfold yields_accepted_in_order. intros H. vm_compute in H. discriminate.
Qed.

Lemma main_refuses_before_fetching_witness :
  is_platform_linux (mk_environment "win32" 0 (Body Sample.document_two) true)
  = false
  /\ main Sample.strptime Sample.NOW
          (mk_environment "win32" 0 (Body Sample.document_two) true) Sample.before
     = (inl (RuntimeError "The running platform is not linux"), Sample.before)
  /\ is_platform_linux (mk_environment "linux" 1000 (Body Sample.document_two) true)
     = true
  /\ 1000 <> 0
  /\ main Sample.strptime Sample.NOW
          (mk_environment "linux" 1000 (Body Sample.document_two) true)
          Sample.before
     = (inl (RuntimeError "The user who is running the script needs to be root"),
        Sample.before).
Proof.
  split; [reflexivity|]. split.
  - apply (main_refuses_before_fetching Sample.strptime Sample.NOW
             (mk_environment "win32" 0 (Body Sample.document_two) true)).
    reflexivity.
  - split; [reflexivity|]. split; [discriminate|].
    apply (main_refuses_before_fetching Sample.strptime Sample.NOW
             (mk_environment "linux" 1000 (Body Sample.document_two) true));
      [reflexivity|discriminate].
Defined.


(** * Further properties of the script *)

Lemma file_operations_trailing_warn (tr : list event) (msg : string) (c : category) :
  file_operations (tr ++ [Warn msg c]) = file_operations tr.
Proof. rewrite file_operations_app. cbn. now rewrite app_nil_r. Qed.

Lemma file_operations_after_advisory (w : world) (b : bool) :
  file_operations (trace (after_advisory w b)) = file_operations (trace w).
Proof.
  unfold after_advisory. cbn [trace]. rewrite file_operations_app.
  destruct b; cbn; now rewrite app_nil_r.
Qed.

Lemma rewritten_twice (old : option string) (lines : list string) :
  rewritten mode_w (rewritten mode_w old lines) lines = rewritten mode_w old lines.
Proof. destruct lines; reflexivity. Qed.

Lemma no_fetch_line_by_line (m : mode) (lines : list string) (from : string) :
  ~ In (Fetch from) (line_by_line m lines).
Proof.
  revert m; induction lines as [|x xs IH]; intros m; cbn; [tauto|].
  intros [H|[H|[H|H]]]; try discriminate. exact (IH _ H).
Qed.

Section Outcomes.

Variable strptime : string -> string -> option datetime.
Variable NOW : datetime.

#[local] Abbreviation is_outdated := (is_outdated strptime NOW).
#[local] Abbreviation updated_urls := (updated_urls strptime NOW).
#[local] Abbreviation main := (main strptime NOW).
#[local] Abbreviation fresh := (fresh strptime NOW).
#[local] Abbreviation meets_standards := (meets_standards strptime NOW).
#[local] Abbreviation malformed := (malformed strptime).

(** One turn of the loop of [updated_urls] on an entry that does not make
    [strptime] raise. *)
Lemma updated_urls_cons_parsed (e : url_information) (l : list url_information) :
  ~ malformed e ->
  updated_urls (e :: l) =
  if meets_standards e then Yield (mirror_path e) (updated_urls l)
  else updated_urls l.
Proof.
  intros Hn. rewrite updated_urls_cons.
  assert (meets_standards e =
          first_five e &&
          match is_outdated (last_sync e) FORMAT_LAST_SYNC with
          | inr false => true
          | _ => false
          end) as -> by reflexivity.
  destruct (first_five e) eqn:E5; [|reflexivity]. cbn [andb].
  destruct (strptime (last_sync e) FORMAT_LAST_SYNC) as [t|] eqn:Et.
  - rewrite (is_outdated_parsed _ _ _ _ _ Et).
    now destruct (threshold_us <? elapsed_us NOW t).
  - elim Hn. now split.
Qed.


(** The generator raises nothing but the [ValueError] of [strptime]. *)
Lemma ending_updated_urls (l : list url_information) :
  ending (updated_urls l) = None
  \/ exists timestamp,
       ending (updated_urls l) = Some (ValueError timestamp FORMAT_LAST_SYNC).
Proof.
  destruct (updated_urls_run strptime NOW l)
    as [[H _]|(pre & e & post & _ & _ & _ & Hend & _)].
  - left. rewrite H. apply ending_of_list.
  - right. eauto.
Qed.

(** A run that fetched a document whose [last_check] parses, in full. *)
Lemma main_formula (env : environment) (w : world) (d : Data) (b : bool) :
  is_platform_linux env = true -> geteuid env = 0 -> urlopen env = Body d ->
  is_outdated (last_check d) FORMAT_LAST_CHECK = inr b ->
  main env w =
  if writable env then
    (match ending (updated_urls (urls d)) with
     | Some e => inl e
     | None => inr tt
     end,
     {| mirrorlist := rewritten mode_w (mirrorlist w)
                                (yielded (updated_urls (urls d)));
        trace := trace (after_advisory w b)
                 ++ line_by_line mode_w (yielded (updated_urls (urls d)))
                 ++ match ending (updated_urls (urls d)),
                          yielded (updated_urls (urls d)) with
                    | None, [] => [NOT_UPDATED_WARNING]
                    | _, _ => []
                    end |})
  else
    match updated_urls (urls d) with
    | StopIteration =>
        (inr tt, {| mirrorlist := mirrorlist w;
                    trace := trace (after_advisory w b) ++ [NOT_UPDATED_WARNING] |})
    | Raise e => (inl e, after_advisory w b)
    | Yield _ _ => (inl OSError, after_advisory w b)
    end.
Proof.
  intros Hp Hu Hd Hb. rewrite (main_unfold strptime NOW env w d b Hp Hu Hd Hb).
  destruct (writable env) eqn:Hw.
  - rewrite (for_mirror_path_writable env _ Hw). unfold conclude.
    change (mirrorlist (after_advisory w b)) with (mirrorlist w).
    destruct (ending (updated_urls (urls d))) as [e|].
    + now rewrite app_nil_r.
    + destruct (yielded (updated_urls (urls d))) as [|x xs]; cbn [fst].
      * cbn [mirrorlist trace line_by_line app rewritten].
        now rewrite app_nil_r.
      * now rewrite app_nil_r.
  - rewrite (for_mirror_path_readonly env _ Hw). unfold conclude.
    destruct (updated_urls (urls d)); reflexivity.
Qed.

(** What every run does to the file. *)
Lemma main_file (env : environment) :
  exists lines,
    forall w,
      mirrorlist (after_run (main env w)) = rewritten mode_w (mirrorlist w) lines
      /\ file_operations (trace (after_run (main env w)))
         = (file_operations (trace w) ++ line_by_line mode_w lines)%list.
Proof.
  unfold after_run.
  destruct (is_platform_linux env) eqn:Hp;
    [destruct (Z.eq_dec (geteuid env) 0) as [Hu|Hu]|].
  - destruct (urlopen env) as [| |d] eqn:Hd.
    + exists []. intros w.
      destruct (main_fetch_failed strptime NOW env w Hp Hu) as (e & _ & ->);
        [congruence|].
      cbn [snd rewritten line_by_line].
      rewrite file_operations_after_advisory, app_nil_r. split; reflexivity.
    + exists []. intros w.
      destruct (main_fetch_failed strptime NOW env w Hp Hu) as (e & _ & ->);
        [congruence|].
      cbn [snd rewritten line_by_line].
      rewrite file_operations_after_advisory, app_nil_r. split; reflexivity.
    + destruct (strptime (last_check d) FORMAT_LAST_CHECK) as [t|] eqn:Et.
      * pose proof (is_outdated_parsed strptime NOW _ _ _ Et) as Hb.
        destruct (writable env) eqn:Hw.
        -- exists (yielded (updated_urls (urls d))). intros w.
           rewrite (main_formula env w d _ Hp Hu Hd Hb), Hw.
           cbn [snd mirrorlist trace]. split; [reflexivity|].
           rewrite !file_operations_app, file_operations_after_advisory,
             file_operations_line_by_line.
           f_equal. rewrite <- app_nil_r. f_equal.
           destruct (ending _); [reflexivity|].
           now destruct (yielded _).
        -- exists []. intros w.
           rewrite (main_formula env w d _ Hp Hu Hd Hb), Hw.
           cbn [rewritten line_by_line]. rewrite app_nil_r.
           destruct (updated_urls (urls d)); cbn [snd mirrorlist trace];
             unfold NOT_UPDATED_WARNING;
             rewrite ?file_operations_trailing_warn,
               ?file_operations_after_advisory; split; reflexivity.
      * exists []. intros w.
        rewrite (main_last_check_unparsed strptime NOW env w d Hp Hu Hd Et).
        cbn [snd rewritten line_by_line].
        rewrite file_operations_after_advisory, app_nil_r. split; reflexivity.
  - exists []. intros w.
    destruct (main_precondition_failed strptime NOW env w (or_intror Hu))
      as [msg ->].
    cbn [snd rewritten line_by_line]. now rewrite app_nil_r.
  - exists []. intros w.
    destruct (main_precondition_failed strptime NOW env w (or_introl Hp))
      as [msg ->].
    cbn [snd rewritten line_by_line]. now rewrite app_nil_r.
Qed.

(** The ways a run can end, with what decides each. *)
Lemma main_outcome (env : environment) (w : world) :
  ((is_platform_linux env = false \/ geteuid env <> 0)
   /\ exists msg, main env w = (inl (RuntimeError msg), w))
  \/ (is_platform_linux env = true /\ geteuid env = 0
      /\ ((urlopen env = Unreachable
           /\ main env w = (inl URLError, after_advisory w false))
          \/ (urlopen env = NotJSON
              /\ main env w = (inl JSONDecodeError, after_advisory w false))
          \/ (exists d,
                urlopen env = Body d
                /\ strptime (last_check d) FORMAT_LAST_CHECK = None
                /\ main env w
                   = (inl (ValueError (last_check d) FORMAT_LAST_CHECK),
                      after_advisory w false))
          \/ (exists d b,
                urlopen env = Body d
                /\ is_outdated (last_check d) FORMAT_LAST_CHECK = inr b))).
Proof.
  destruct (is_platform_linux env) eqn:Hp;
    [destruct (Z.eq_dec (geteuid env) 0) as [Hu|Hu]|].
  - right. split; [reflexivity|]. split; [exact Hu|].
    destruct (urlopen env) as [| |d] eqn:Hd.
    + left. split; [reflexivity|].
      unfold main, after_advisory. rewrite Hp, Hu. cbn [negb Z.eqb].
      unfold bind at 1, load_data_from_url. unfold bind at 1, emit.
      now rewrite Hd.
    + right. left. split; [reflexivity|].
      unfold main, after_advisory. rewrite Hp, Hu. cbn [negb Z.eqb].
      unfold bind at 1, load_data_from_url. unfold bind at 1, emit.
      now rewrite Hd.
    + right. right.
      destruct (strptime (last_check d) FORMAT_LAST_CHECK) as [t|] eqn:Et.
      * right. exists d. eexists. split; [reflexivity|].
        apply (is_outdated_parsed _ _ _ _ _ Et).
      * left. exists d. split; [reflexivity|]. split; [exact Et|].
        apply (main_last_check_unparsed strptime NOW env w d Hp Hu Hd Et).
  - left. split; [now right|].
    apply main_precondition_failed. now right.
  - left. split; [now left|].
    apply main_precondition_failed. now left.
Qed.

(** A run that fetched a document whose [last_check] parses returns, or
    ends on the [ValueError] of an entry, or on [OSError]. *)
Lemma main_fetched_outcome (env : environment) (w : world) (d : Data) (b : bool) :
  is_platform_linux env = true -> geteuid env = 0 -> urlopen env = Body d ->
  is_outdated (last_check d) FORMAT_LAST_CHECK = inr b ->
  fst (main env w) = inr tt
  \/ (exists timestamp,
        fst (main env w) = inl (ValueError timestamp FORMAT_LAST_SYNC))
  \/ fst (main env w) = inl OSError.
Proof.
  intros Hp Hu Hd Hb. rewrite (main_formula env w d b Hp Hu Hd Hb).
  destruct (writable env).
  - destruct (ending_updated_urls (urls d)) as [->|[ts ->]]; cbn [fst]; eauto.
  - destruct (ending_updated_urls (urls d)) as [He|[ts He]];
      destruct (updated_urls (urls d)) as [|e|a rest]; cbn [fst]; eauto;
      cbn in He; try discriminate.
    injection He as ->. eauto.
Qed.

(** X1.  [URLError] and [JSONDecodeError] come from the fetch and from
    nothing after it: a run that ends on one of them had passed the two
    checks, got no document, and did nothing but the request. *)
Theorem network_error_only_from_fetch (env : environment) (w : world) :
  fst (main env w) = inl URLError \/ fst (main env w) = inl JSONDecodeError ->
  is_platform_linux env = true
  /\ geteuid env = 0
  /\ (forall d, urlopen env <> Body d)
  /\ after_run (main env w)
     = {| mirrorlist := mirrorlist w; trace := trace w ++ [Fetch URL] |}.
Proof.
  unfold after_run.
  destruct (main_outcome env w)
    as [[Hpre [msg Hm]]
       |(Hp & Hu & [[Hd Hm]|[[Hd Hm]|[(d & Hd & Et & Hm)|(d & b & Hd & Hb)]]])].
  - rewrite Hm. intros [H|H]; discriminate.
  - rewrite Hm. intros _. repeat (split; [assumption|]).
    split; [intros d; congruence|reflexivity].
  - rewrite Hm. intros _. repeat (split; [assumption|]).
    split; [intros d; congruence|reflexivity].
  - rewrite Hm. intros [H|H]; discriminate.
  - destruct (main_fetched_outcome env w d b Hp Hu Hd Hb) as [H|[[ts H]|H]];
      rewrite H; intros [H'|H']; discriminate.
Qed.

(** X2.  [main] returns normally only when the platform is linux, the
    user is root, the server answered with a document whose [last_check]
    parses, no entry makes [strptime] raise, and the mirror list can be
    opened or no entry meets the standards. *)
Theorem main_returns_only_if (env : environment) (w : world) :
  fst (main env w) = inr tt ->
  is_platform_linux env = true
  /\ geteuid env = 0
  /\ exists d,
       urlopen env = Body d
       /\ strptime (last_check d) FORMAT_LAST_CHECK <> None
       /\ (forall e, In e (urls d) -> ~ malformed e)
       /\ (writable env = true
           \/ forall e, In e (urls d) -> meets_standards e = false).
Proof.
  destruct (main_outcome env w)
    as [[Hpre [msg Hm]]
       |(Hp & Hu & [[Hd Hm]|[[Hd Hm]|[(d & Hd & Et & Hm)|(d & b & Hd & Hb)]]])];
    try (rewrite Hm; discriminate).
  rewrite (main_formula env w d b Hp Hu Hd Hb).
  assert (strptime (last_check d) FORMAT_LAST_CHECK <> None) as Hc.
  { apply is_outdated_answer in Hb as [t [Ht _]]. congruence. }
  destruct (updated_urls_run strptime NOW (urls d))
    as [[Hg Hok]|(pre & e & post & Heq & He & Hpre & Hend & Hy)].
  - rewrite Hg, ending_of_list.
    intros Hrun. split; [exact Hp|]. split; [exact Hu|].
    exists d. repeat (split; [assumption|]).
    destruct (writable env); [now left|right].
    destruct (filter meets_standards (urls d)) as [|x xs] eqn:Ef;
      [|discriminate].
    intros e' He'. destruct (meets_standards e') eqn:Em; [|reflexivity].
    assert (In e' (filter meets_standards (urls d)))
      by (apply filter_In; now split).
    rewrite Ef in *. contradiction.
  - intros Hrun. exfalso. destruct (writable env).
    + rewrite Hend in Hrun. discriminate.
    + destruct (updated_urls (urls d)); cbn in Hend, Hrun; discriminate.
Qed.



(** X4.  The generator over two lists put end to end is the generator
    over the first followed by the generator over the second, which is not
    started when the first raises. *)
Theorem updated_urls_app (l1 l2 : list url_information) :
  updated_urls (l1 ++ l2) = chain (updated_urls l1) (updated_urls l2).
Proof.
  induction l1 as [|e l1 IH]; [reflexivity|].
  cbn [app]. rewrite !updated_urls_cons, IH.
  destruct (first_five e); [|reflexivity].
  now destruct (is_outdated (last_sync e) FORMAT_LAST_SYNC) as [x|[|]].
Qed.

(** X5.  Entries that one of the first five checks turns down can be
    taken out of the list beforehand: the generator is the same, whatever
    their [last_sync]. *)
Theorem updated_urls_ignores_turned_down (l : list url_information) :
  updated_urls l = updated_urls (filter first_five l).
Proof.
  induction l as [|e l IH]; [reflexivity|].
  cbn [filter]. destruct (first_five e) eqn:E5.
  - rewrite !updated_urls_cons, E5, IH. reflexivity.
  - rewrite updated_urls_cons, E5. exact IH.
Qed.

(** X6.  The freshness check is monotone: when a timestamp is outdated,
    so is every timestamp that parses to the same or an earlier instant. *)
Theorem is_outdated_earlier
    (timestamp timestamp' time_format time_format' : string)
    (t t' : datetime) :
  strptime timestamp time_format = Some t ->
  strptime timestamp' time_format' = Some t' ->
  to_microseconds t' <= to_microseconds t ->
  is_outdated timestamp time_format = inr true ->
  is_outdated timestamp' time_format' = inr true.
Proof.
  intros Ht Ht' Hle.
  rewrite (is_outdated_parsed _ _ _ _ _ Ht), (is_outdated_parsed _ _ _ _ _ Ht').
  intros [= H]. f_equal. apply Z.ltb_lt in H. apply Z.ltb_lt.
  unfold elapsed_us in *. lia.
Qed.

(** X7.  The generator stops at the first entry on which [strptime] is
    reached and raises: it yields the lines of the entries before it that
    meet the standards and raises the [ValueError] of that entry; what
    comes after it in the list is never looked at. *)
Theorem updated_urls_raises_at_first_malformed
    (pre post : list url_information) (e : url_information) :
  (forall x, In x pre -> ~ malformed x) ->
  malformed e ->
  updated_urls (pre ++ e :: post)
  = chain (of_list (map mirror_path (filter meets_standards pre)))
          (Raise (ValueError (last_sync e) FORMAT_LAST_SYNC)).
Proof.
  intros Hpre [H5 Hn]. induction pre as [|x pre IH]; cbn [app].
  - rewrite updated_urls_cons, H5.
    now rewrite (is_outdated_unparsed _ _ _ _ Hn).
  - rewrite (updated_urls_cons_parsed x _ (Hpre x (or_introl eq_refl))).
    cbn [filter].
    rewrite IH by (intros y Hy; apply Hpre; now right).
    now destruct (meets_standards x).
Qed.

(** X8.  Running the script again in the same surroundings leaves the
    mirror list as the first run left it, however the runs end. *)
Theorem main_twice_same_mirror_list (env : environment) (w : world) :
  mirrorlist (after_run (main env (after_run (main env w))))
  = mirrorlist (after_run (main env w)).
Proof.
  destruct (main_file env) as [lines H].
  rewrite (proj1 (H (after_run (main env w)))), (proj1 (H w)).
  apply rewritten_twice.
Qed.


(** X10.  A run that passes the two checks asks the server once, before
    anything else, and never again. *)
Theorem main_fetches_once_first (env : environment) (w : world) :
  is_platform_linux env = true -> geteuid env = 0 ->
  exists rest,
    trace (after_run (main env w)) = (trace w ++ Fetch URL :: rest)%list
    /\ forall from, ~ In (Fetch from) rest.
Proof.
  intros Hp Hu. unfold after_run.
  destruct (main_outcome env w)
    as [[Hpre _]
       |(_ & _ & [[_ Hm]|[[_ Hm]|[(d & _ & _ & Hm)|(d & b & Hd & Hb)]]])].
  - destruct Hpre; congruence.
  - rewrite Hm. exists []. split; [reflexivity|]. intros from [].
  - rewrite Hm. exists []. split; [reflexivity|]. intros from [].
  - rewrite Hm. exists []. split; [reflexivity|]. intros from [].
  - rewrite (main_formula env w d b Hp Hu Hd Hb).
    assert (forall from, ~ In (Fetch from) (if b then [STALE_WARNING] else []))
      as Hadv by (intros from; destruct b; cbn; intuition discriminate).
    destruct (writable env).
    + eexists. cbn [snd trace after_advisory]. split.
      * rewrite <- app_assoc. cbn [app]. reflexivity.
      * intros from Hin.
        apply in_app_or in Hin as [Hin|Hin]; [exact (Hadv from Hin)|].
        apply in_app_or in Hin as [Hin|Hin];
          [exact (no_fetch_line_by_line _ _ _ Hin)|].
        destruct (ending _); [destruct Hin|].
        destruct (yielded _); cbn in Hin; intuition discriminate.
    + destruct (updated_urls (urls d)); cbn [snd trace after_advisory].
      * eexists. split; [rewrite <- app_assoc; cbn [app]; reflexivity|].
        intros from Hin.
        apply in_app_or in Hin as [Hin|Hin]; [exact (Hadv from Hin)|].
        cbn in Hin. intuition discriminate.
      * eexists. split; [reflexivity|exact Hadv].
      * eexists. split; [reflexivity|exact Hadv].
Qed.

End Outcomes.

Lemma length_append (a b : string) :
  String.length (a ++ b) = (String.length a + String.length b)%nat.
Proof. induction a as [|x a IH]; cbn; [reflexivity|now rewrite IH]. Qed.

Lemma append_cancel_r (a b s : string) : a ++ s = b ++ s -> a = b.
Proof.
  revert b; induction a as [|x a IH]; intros [|y b] H; cbn in H.
  - reflexivity.
  - apply (f_equal String.length) in H. cbn in H. rewrite length_append in H. lia.
  - apply (f_equal String.length) in H. cbn in H. rewrite length_append in H. lia.
  - injection H as -> H. now rewrite (IH b H).
Qed.

(** X11.  The line of an entry tells its url: two entries get the same
    line only when their urls are the same. *)
Theorem mirror_path_tells_url (e1 e2 : url_information) :
  mirror_path e1 = mirror_path e2 -> url e1 = url e2.
Proof.
  unfold mirror_path. intros H.
  cbn [append] in H. injection H as H.
  apply (append_cancel_r _ _ ("$repo/os/$arch" ++ Py.LF)). exact H.
Qed.

(** ** Sample runs of the further properties *)

Lemma network_error_only_from_fetch_witness :
  fst (main Sample.strptime Sample.NOW Sample.offline Sample.before)
  = inl URLError
  /\ is_platform_linux Sample.offline = true
  /\ geteuid Sample.offline = 0
  /\ (forall d, urlopen Sample.offline <> Body d)
  /\ after_run (main Sample.strptime Sample.NOW Sample.offline Sample.before)
     = {| mirrorlist := mirrorlist Sample.before;
          trace := trace Sample.before ++ [Fetch URL] |}.
Proof.
  split; [reflexivity|].
  exact (network_error_only_from_fetch Sample.strptime Sample.NOW
           Sample.offline Sample.before (or_introl eq_refl)).
Defined.

Lemma main_returns_only_if_witness :
  fst (main Sample.strptime Sample.NOW
         (Sample.root_on_linux Sample.document_two) Sample.before) = inr tt
  /\ is_platform_linux (Sample.root_on_linux Sample.document_two) = true
  /\ geteuid (Sample.root_on_linux Sample.document_two) = 0
  /\ exists d,
       urlopen (Sample.root_on_linux Sample.document_two) = Body d
       /\ Sample.strptime (last_check d) FORMAT_LAST_CHECK <> None
       /\ (forall e, In e (urls d) -> ~ malformed Sample.strptime e)
       /\ (writable (Sample.root_on_linux Sample.document_two) = true
           \/ forall e, In e (urls d) ->
                meets_standards Sample.strptime Sample.NOW e = false).
Proof.
  split; [reflexivity|].
  exact (main_returns_only_if Sample.strptime Sample.NOW
           (Sample.root_on_linux Sample.document_two) Sample.before eq_refl).
Defined.



Lemma is_outdated_earlier_witness :
  Sample.strptime "2020-03-01T05:00:00Z" FORMAT_LAST_SYNC
  = Some (mk_datetime 2020 3 1 5 0 0 0)
  /\ Sample.strptime "2020-02-28T23:30:00.250Z" FORMAT_LAST_CHECK
     = Some (mk_datetime 2020 2 28 23 30 0 250000)
  /\ to_microseconds (mk_datetime 2020 2 28 23 30 0 250000)
     <= to_microseconds (mk_datetime 2020 3 1 5 0 0 0)
  /\ is_outdated Sample.strptime Sample.NOW
                 "2020-03-01T05:00:00Z" FORMAT_LAST_SYNC = inr true
  /\ is_outdated Sample.strptime Sample.NOW
                 "2020-02-28T23:30:00.250Z" FORMAT_LAST_CHECK = inr true.
Proof.
  assert (to_microseconds (mk_datetime 2020 2 28 23 30 0 250000)
          <= to_microseconds (mk_datetime 2020 3 1 5 0 0 0)) as Hle
    by (vm_compute; discriminate).
  split; [reflexivity|]. split; [reflexivity|]. split; [exact Hle|].
  split; [reflexivity|].
  exact (is_outdated_earlier Sample.strptime Sample.NOW
           "2020-03-01T05:00:00Z" "2020-02-28T23:30:00.250Z"
           FORMAT_LAST_SYNC FORMAT_LAST_CHECK
           (mk_datetime 2020 3 1 5 0 0 0)
           (mk_datetime 2020 2 28 23 30 0 250000)
           eq_refl eq_refl Hle eq_refl).
Defined.

Lemma updated_urls_raises_at_first_malformed_witness :
  (forall x, In x [Sample.mirror_example] -> ~ malformed Sample.strptime x)
  /\ malformed Sample.strptime Sample.mirror_malformed
  /\ updated_urls Sample.strptime Sample.NOW
       [Sample.mirror_example; Sample.mirror_malformed; Sample.mirror_second]
     = Yield ("Server = mirror.example/$repo/os/$arch" ++ Py.LF)
             (Raise (ValueError "yesterday" FORMAT_LAST_SYNC)).
Proof.
  assert (forall x, In x [Sample.mirror_example] ->
            ~ malformed Sample.strptime x) as Hpre.
  { intros x [<-|[]] [_ Hn]. vm_compute in Hn. discriminate. }
  assert (malformed Sample.strptime Sample.mirror_malformed) as Hm
    by (split; reflexivity).
  split; [exact Hpre|]. split; [exact Hm|].
  exact (updated_urls_raises_at_first_malformed Sample.strptime Sample.NOW
           [Sample.mirror_example] [Sample.mirror_second]
           Sample.mirror_malformed Hpre Hm).
Defined.

Lemma main_fetches_once_first_witness :
  is_platform_linux (Sample.root_on_linux Sample.document_two) = true
  /\ geteuid (Sample.root_on_linux Sample.document_two) = 0
  /\ exists rest,
       trace (after_run (main Sample.strptime Sample.NOW
                           (Sample.root_on_linux Sample.document_two)
                           Sample.before))
       = (trace Sample.before ++ Fetch URL :: rest)%list
       /\ forall from, ~ In (Fetch from) rest.
Proof.
  split; [reflexivity|]. split; [reflexivity|].
  exact (main_fetches_once_first Sample.strptime Sample.NOW
           (Sample.root_on_linux Sample.document_two) Sample.before
           eq_refl eq_refl).
Defined.

Lemma mirror_path_tells_url_witness :
  mirror_path Sample.mirror_example = mirror_path Sample.mirror_http
  /\ url Sample.mirror_example = url Sample.mirror_http.
Proof.
  split; [reflexivity|].
  exact (mirror_path_tells_url Sample.mirror_example Sample.mirror_http eq_refl).
Defined.

(** ** The two warnings *)


Lemma no_runtime_warning_line_by_line (m : mode) (lines : list string)
    (msg : string) :
  ~ In (Warn msg RuntimeWarning) (line_by_line m lines).
Proof.
  revert m; induction lines as [|x xs IH]; intros m; cbn; [tauto|].
  intros [H|[H|[H|H]]]; try discriminate. exact (IH _ H).
Qed.

Section Warnings.

Variable strptime : string -> string -> option datetime.
Variable NOW : datetime.

#[local] Abbreviation is_outdated := (is_outdated strptime NOW).
#[local] Abbreviation updated_urls := (updated_urls strptime NOW).
#[local] Abbreviation main := (main strptime NOW).

(** X12.  The [RuntimeWarning] about old data is issued exactly when
    [last_check] is outdated, right after the fetch, and the run issues no
    other [RuntimeWarning]. *)
Theorem stale_warning_iff_last_check_outdated
    (env : environment) (w : world) (d : Data) (outdated : bool) :
  is_platform_linux env = true -> geteuid env = 0 -> urlopen env = Body d ->
  is_outdated (last_check d) FORMAT_LAST_CHECK = inr outdated ->
  exists rest,
    trace (after_run (main env w))
    = (trace w ++ Fetch URL :: (if outdated then [STALE_WARNING] else []) ++ rest)%list
    /\ forall msg, ~ In (Warn msg RuntimeWarning) rest.
Proof.
  intros Hp Hu Hd Hb. unfold after_run.
  rewrite (main_formula strptime NOW env w d outdated Hp Hu Hd Hb).
  destruct (writable env).
  - eexists. cbn [snd trace after_advisory]. split.
    + rewrite <- app_assoc. cbn [app]. reflexivity.
    + intros msg Hin.
      apply in_app_or in Hin as [Hin|Hin];
        [exact (no_runtime_warning_line_by_line _ _ _ Hin)|].
      destruct (ending _); [destruct Hin|].
      destruct (yielded _); cbn in Hin; intuition discriminate.
  - destruct (updated_urls (urls d)); cbn [snd trace after_advisory].
    + exists [NOT_UPDATED_WARNING]. split.
      * rewrite <- app_assoc. reflexivity.
      * intros msg Hin. cbn in Hin. intuition discriminate.
    + exists []. split; [now rewrite app_nil_r|]. intros msg [].
    + exists []. split; [now rewrite app_nil_r|]. intros msg [].
Qed.


End Warnings.

Lemma stale_warning_iff_last_check_outdated_witness :
  is_outdated Sample.strptime Sample.NOW
              (last_check Sample.document_stale) FORMAT_LAST_CHECK = inr true
  /\ exists rest,
       trace (after_run (main Sample.strptime Sample.NOW
                           (Sample.root_on_linux Sample.document_stale)
                           Sample.before))
       = (trace Sample.before
          ++ Fetch URL :: (if true then [STALE_WARNING] else []) ++ rest)%list
       /\ forall msg, ~ In (Warn msg RuntimeWarning) rest.
Proof.
  split; [reflexivity|].
  exact (stale_warning_iff_last_check_outdated Sample.strptime Sample.NOW
           (Sample.root_on_linux Sample.document_stale) Sample.before
           Sample.document_stale true eq_refl eq_refl eq_refl eq_refl).
Defined.

